(** * PowerClash: a shallow embedding of the runtime module

    The module [PowerClash] (apps/web/games/pc/features/startGame.ts) is a
    protokit runtime module: a two-player, best-of-three commit/reveal game
    over five symbols, with a timeout claim and a settlement step.

    The embedding follows the TypeScript text method by method.  Three
    layers are kept apart, because the source mixes them:

    - o1js values ([Field], [Bool], [UInt64], [PublicKey]) and the
      operations the source calls on them ([equals], [add], [Bool.or],
      [Provable.if], ...);
    - the JavaScript operators [if], [!], [||] and [&&] where the source
      applies them to those values;
    - the protokit runtime: keyed state ([StateMap]), [assert], the
      transaction sender and the block height. *)

From Stdlib Require Import ZArith Lia String List.
From stdpp Require Import base countable gmap strings.

Local Open Scope Z_scope.

(** ** o1js values *)

(** The order of the Pallas base field, the native field of o1js. *)
Definition Fp : Z :=
  28948022309329048855892746252171976963363056481941560715954676764349967630337.

(** A [Field] is kept as its canonical representative in [0, Fp). *)
Definition Field := Z.

(** [Field(n)] for a JavaScript number [n]; [Field(-1)] is [Fp - 1]. *)
Definition mkField (n : Z) : Field := n mod Fp.

(** An o1js [Bool]: a JavaScript object that wraps a boolean value. *)
Record Bool := Bool_ { toBoolean : bool }.

Definition Bool_or (a b : Bool) : Bool := Bool_ (toBoolean a || toBoolean b).
Definition Bool_and (a b : Bool) : Bool := Bool_ (toBoolean a && toBoolean b).
Definition Bool_equals (a b : Bool) : Bool :=
  Bool_ (Stdlib.Bool.Bool.eqb (toBoolean a) (toBoolean b)).

(** [Provable.if(c, a, b)] selects on the wrapped value. *)
Definition Provable_if {A : Type} (c : Bool) (a b : A) : A :=
  if toBoolean c then a else b.

Definition Field_equals (a b : Field) : Bool := Bool_ (a =? b).
Definition Field_add (a b : Field) : Field := (a + b) mod Fp.

(** A [PublicKey] is a compressed curve point. *)
Record PublicKey := mkPublicKey { pk_x : Field; pk_isOdd : bool }.

(** [PublicKey.empty()]. *)
Definition PublicKey_empty : PublicKey := mkPublicKey 0 false.

Definition PublicKey_equals (a b : PublicKey) : Bool :=
  Bool_ ((pk_x a =? pk_x b) && Stdlib.Bool.Bool.eqb (pk_isOdd a) (pk_isOdd b)).

#[global] Instance PublicKey_eq_dec : EqDecision PublicKey.
Proof. solve_decision. Defined.

#[global] Instance PublicKey_countable : Countable PublicKey.
Proof.
  refine (inj_countable' (fun k => (pk_x k, pk_isOdd k))
                         (fun p => mkPublicKey (fst p) (snd p)) _).
  intros []; reflexivity.
Defined.

(** [UInt64]: a number in [0, 2^64). *)
Definition UInt64_MAX : Z := 2 ^ 64 - 1.

Definition UInt64_lessThanOrEqual (a b : Z) : Bool := Bool_ (a <=? b).
Definition UInt64_greaterThan (a b : Z) : Bool := Bool_ (b <? a).

(** ** JavaScript operators on objects

    The source applies the JavaScript operators [if (..)], [!] and [||]
    directly to values returned by [equals], which are o1js [Bool]s.  These
    operators convert their operand with the abstract operation
    [ToBoolean] of ECMAScript, which maps every object to [true] without
    looking inside.  An o1js [Bool] is an instance of a class, so the
    conversion never consults [toBoolean].  (This is why o1js offers
    [Provable.if], [Bool.or] and [Bool.not], which the source uses in
    [determineWinner] and in [claimTimeoutVictory].) *)
Definition ToBoolean (b : Bool) : bool := true.

(** [!b]: a JavaScript boolean. *)
Definition js_not (b : Bool) : bool := negb (ToBoolean b).

(** [a || b]: [a] when [a] is truthy, else [b]. *)
Definition js_or (a b : Bool) : Bool := if ToBoolean a then a else b.

(** ** Game configuration constants (lines 92-93) *)
Definition ROUNDS_TO_WIN : Z := 2.
Definition MOVE_TIME_LIMIT : Z := 50.

(** ** Data model (lines 96-116) *)
Record RPSLSMove := mkRPSLSMove { move : Field; salt : Field }.

Record Game := mkGame {
  id : Z;
  player1 : PublicKey;
  player2 : PublicKey;
  player1Commitment : Field;
  player2Commitment : Field;
  player1Move : RPSLSMove;
  player2Move : RPSLSMove;
  player1Wins : Field;
  player2Wins : Field;
  commitmentDeadline : Z;
  revealDeadline : Z;
  gameWinner : PublicKey;
  lastMoveBlockHeight : Z;
}.

(** ** determineWinner (lines 254-271) *)
Definition determineWinner (move1 move2 : Field) (player1 player2 : PublicKey)
  : PublicKey :=
  let p1Wins :=
    Bool_or
      (Bool_and (Field_equals move1 (mkField 0))
         (Bool_or (Field_equals move2 (mkField 2)) (Field_equals move2 (mkField 3))))
      (Bool_or
         (Bool_and (Field_equals move1 (mkField 1))
            (Bool_or (Field_equals move2 (mkField 0)) (Field_equals move2 (mkField 4))))
         (Bool_or
            (Bool_and (Field_equals move1 (mkField 2))
               (Bool_or (Field_equals move2 (mkField 1)) (Field_equals move2 (mkField 3))))
            (Bool_or
               (Bool_and (Field_equals move1 (mkField 3))
                  (Bool_or (Field_equals move2 (mkField 1)) (Field_equals move2 (mkField 4))))
               (Bool_and (Field_equals move1 (mkField 4))
                  (Bool_or (Field_equals move2 (mkField 0)) (Field_equals move2 (mkField 2)))))))
  in
  Provable_if p1Wins player1
    (Provable_if (Field_equals move1 move2) PublicKey_empty player2).

(** The table of section 4.3 of the specification, as the list of pairs
    (mover, beaten). *)
Definition beats_table : list (Z * Z) :=
  [(0,2); (0,3); (1,0); (1,4); (2,1); (2,3); (3,1); (3,4); (4,0); (4,2)].

Definition beats (m1 m2 : Z) : bool :=
  existsb (fun p => (fst p =? m1) && (snd p =? m2)) beats_table.

(** ** The protokit runtime *)

(** The [Lobby] handed over by the matchmaking layer.

    Modelled from the spec: the declaration lives in ../engine/LobbyManager,
    which is not part of this module; section 4.6 gives what [initGame]
    reads from it, two paired player identities ([players[0]],
    [players[1]]) and a participation fee. *)
Record Lobby := mkLobby {
  players : PublicKey * PublicKey;
  participationFee : Z;
}.

(** Calls into methods inherited from [MatchMaker] (../engine/MatchMaker).
    Their bodies are not part of this module: a call is recorded with its
    arguments, in program order. *)
Inductive BaseCall :=
| acquireFunds (gameId : Z) (a b : PublicKey) (shareA shareB shareC : Z)
| _onLobbyEnd (gameId : Z) (flag : Bool).

(** The keyed state the module reads and writes: its own [games] map, and
    the inherited [gameFund] and [activeGameId] maps, which it writes
    directly with [set]. *)
Record State := mkState {
  games : gmap Z Game;
  gameFund : gmap Z Z;
  activeGameId : gmap PublicKey Z;
  baseCalls : list BaseCall;
}.

(** What a transaction carries: [this.transaction.sender.value] and
    [this.network.block.height]. *)
Record Env := mkEnv { sender : PublicKey; height : Z }.

(** A transaction fails when a protokit [assert] is given a false [Bool]
    (its message is kept) or when an o1js range check throws. *)
Inductive Failure :=
| AssertFailed (msg : string)
| RangeCheckFailed.

(** How a piece of code ends.  A protokit [assert] does not stop the
    method: it sets the status of the transaction to false, keeps the
    first message, and the body runs on ([Failing]); an exception stops it
    ([Failed]). *)
Inductive Outcome (A : Type) :=
| Ok (a : A) (st : State)
| Failing (msg : string) (a : A) (st : State)
| Failed (f : Failure).
Arguments Ok {A} a st.
Arguments Failing {A} msg a st.
Arguments Failed {A} f.

(** Code of the module: from the state before to a result and the state
    after, possibly under a failed status, or to an exception. *)
Definition M (A : Type) : Type := State -> Outcome A.

Definition ret {A} (a : A) : M A := fun st => Ok a st.

(** Sequencing.  Under a failed status the rest still runs, on the values
    and the state the code has reached; the first message stays, and an
    exception thrown by the rest is the outcome. *)
Definition bind {A B} (m : M A) (k : A -> M B) : M B :=
  fun st => match m st with
            | Ok a st' => k a st'
            | Failing msg a st' =>
                match k a st' with
                | Ok b st'' => Failing msg b st''
                | Failing _ b st'' => Failing msg b st''
                | Failed f => Failed f
                end
            | Failed f => Failed f
            end.

Notation "'let*' x ':=' m 'in' k" := (bind m (fun x => k))
  (at level 10, x pattern, m at level 100, k at level 200).
Notation "m ';;' k" := (bind m (fun _ => k))
  (at level 100, k at level 200, right associativity).

(** [assert(condition, message)] reads the wrapped value of the [Bool] it
    is given. *)
Definition assert (condition : Bool) (message : string) : M unit :=
  fun st => if toBoolean condition then Ok tt st
            else Failing message tt st.

(** [@runtimeMethod()]: a method run as a transaction.  A body that ends
    under a failed status fails with the message kept, and its writes are
    dropped; a body that throws fails with the exception. *)
Definition runtimeMethod {A} (body : M A) : M A :=
  fun st => match body st with
            | Ok a st' => Ok a st'
            | Failing msg _ _ => Failed (AssertFailed msg)
            | Failed f => Failed f
            end.

(** The state a transaction leaves behind. *)
Definition state_after {A} (m : M A) (st : State) : State :=
  match m st with
  | Ok _ st' => st'
  | Failing _ _ _ => st
  | Failed _ => st
  end.

(** Checked o1js [UInt64] arithmetic: [add] and [mul] throw out of range. *)
Definition UInt64_checked (n : Z) : M Z :=
  fun st => if (0 <=? n) && (n <=? UInt64_MAX) then Ok n st
            else Failed RangeCheckFailed.
Definition UInt64_add (a b : Z) : M Z := UInt64_checked (a + b).
Definition UInt64_mul (a b : Z) : M Z := UInt64_checked (a * b).

(** [mul] of the UInt64 of @proto-kit/library ([ProtoUInt64]): out of
    range it does not throw but fails a protokit [assert]. *)
Definition ProtoUInt64_mul (a b : Z) : M Z :=
  fun st => if (0 <=? a * b) && (a * b <=? UInt64_MAX) then Ok (a * b) st
            else Failing "Multiplication overflowing" (a * b) st.

(** [Struct] value read for a key that was never set: every field zero. *)
Definition Game_dummy : Game :=
  mkGame 0 PublicKey_empty PublicKey_empty 0 0
         (mkRPSLSMove 0 0) (mkRPSLSMove 0 0) 0 0 0 0 PublicKey_empty 0.

(** The record read for [gameId]: the one stored, or the dummy. *)
Definition stored (gameId : Z) (st : State) : Game :=
  default Game_dummy (games st !! gameId).

(** The state with [game] written under [gameId]. *)
Definition put_game (gameId : Z) (game : Game) (st : State) : State :=
  mkState (<[gameId := game]> (games st)) (gameFund st)
          (activeGameId st) (baseCalls st).

(** [(await this.games.get(gameId)).value] *)
Definition games_get (gameId : Z) : M Game :=
  fun st => Ok (stored gameId st) st.

(** [await this.games.set(gameId, game)] *)
Definition games_set (gameId : Z) (game : Game) : M unit :=
  fun st => Ok tt (put_game gameId game st).

(** [await this.gameFund.set(gameId, amount)] *)
Definition gameFund_set (gameId : Z) (amount : Z) : M unit :=
  fun st => Ok tt (mkState (games st) (<[gameId := amount]> (gameFund st))
                           (activeGameId st) (baseCalls st)).

(** [await this.activeGameId.set(player, gameId)] *)
Definition activeGameId_set (player : PublicKey) (gameId : Z) : M unit :=
  fun st => Ok tt (mkState (games st) (gameFund st)
                           (<[player := gameId]> (activeGameId st)) (baseCalls st)).

(** A call of an inherited method. *)
Definition call (c : BaseCall) : M unit :=
  fun st => Ok tt (mkState (games st) (gameFund st) (activeGameId st)
                           (baseCalls st ++ [c])).

(** ** Field assignments [game.f = v] *)
Definition set_player1Commitment (v : Field) (g : Game) : Game :=
  mkGame (id g) (player1 g) (player2 g) v (player2Commitment g)
         (player1Move g) (player2Move g) (player1Wins g) (player2Wins g)
         (commitmentDeadline g) (revealDeadline g) (gameWinner g)
         (lastMoveBlockHeight g).
Definition set_player2Commitment (v : Field) (g : Game) : Game :=
  mkGame (id g) (player1 g) (player2 g) (player1Commitment g) v
         (player1Move g) (player2Move g) (player1Wins g) (player2Wins g)
         (commitmentDeadline g) (revealDeadline g) (gameWinner g)
         (lastMoveBlockHeight g).
Definition set_player1Move (v : RPSLSMove) (g : Game) : Game :=
  mkGame (id g) (player1 g) (player2 g) (player1Commitment g) (player2Commitment g)
         v (player2Move g) (player1Wins g) (player2Wins g)
         (commitmentDeadline g) (revealDeadline g) (gameWinner g)
         (lastMoveBlockHeight g).
Definition set_player2Move (v : RPSLSMove) (g : Game) : Game :=
  mkGame (id g) (player1 g) (player2 g) (player1Commitment g) (player2Commitment g)
         (player1Move g) v (player1Wins g) (player2Wins g)
         (commitmentDeadline g) (revealDeadline g) (gameWinner g)
         (lastMoveBlockHeight g).
Definition set_player1Wins (v : Field) (g : Game) : Game :=
  mkGame (id g) (player1 g) (player2 g) (player1Commitment g) (player2Commitment g)
         (player1Move g) (player2Move g) v (player2Wins g)
         (commitmentDeadline g) (revealDeadline g) (gameWinner g)
         (lastMoveBlockHeight g).
Definition set_player2Wins (v : Field) (g : Game) : Game :=
  mkGame (id g) (player1 g) (player2 g) (player1Commitment g) (player2Commitment g)
         (player1Move g) (player2Move g) (player1Wins g) v
         (commitmentDeadline g) (revealDeadline g) (gameWinner g)
         (lastMoveBlockHeight g).
Definition set_commitmentDeadline (v : Z) (g : Game) : Game :=
  mkGame (id g) (player1 g) (player2 g) (player1Commitment g) (player2Commitment g)
         (player1Move g) (player2Move g) (player1Wins g) (player2Wins g)
         v (revealDeadline g) (gameWinner g) (lastMoveBlockHeight g).
Definition set_revealDeadline (v : Z) (g : Game) : Game :=
  mkGame (id g) (player1 g) (player2 g) (player1Commitment g) (player2Commitment g)
         (player1Move g) (player2Move g) (player1Wins g) (player2Wins g)
         (commitmentDeadline g) v (gameWinner g) (lastMoveBlockHeight g).
Definition set_gameWinner (v : PublicKey) (g : Game) : Game :=
  mkGame (id g) (player1 g) (player2 g) (player1Commitment g) (player2Commitment g)
         (player1Move g) (player2Move g) (player1Wins g) (player2Wins g)
         (commitmentDeadline g) (revealDeadline g) v (lastMoveBlockHeight g).
Definition set_lastMoveBlockHeight (v : Z) (g : Game) : Game :=
  mkGame (id g) (player1 g) (player2 g) (player1Commitment g) (player2Commitment g)
         (player1Move g) (player2Move g) (player1Wins g) (player2Wins g)
         (commitmentDeadline g) (revealDeadline g) (gameWinner g) v.

(** ** The module's methods *)
Section PowerClash.

(** [Poseidon.hash], the commitment function of o1js. *)
Variable Poseidon_hash : list Field -> Field.

(** [super.initGame], the lobby bookkeeping of [MatchMaker]; it returns
    the match id. *)
Variable super_initGame : Lobby -> Bool -> M Z.

(** The transaction being run. *)
Variable env : Env.

(** *** endGame (lines 277-288)

    The payout is picked by a JavaScript [if] (line 278); the loser, by
    [Provable.if] (line 281). *)
Definition endGame (game : Game) : M unit :=
  (if ToBoolean (PublicKey_equals (gameWinner game) PublicKey_empty) then
     call (acquireFunds (id game) (player1 game) (player2 game) 1 1 0)
   else
     let loser :=
       Provable_if (PublicKey_equals (gameWinner game) (player1 game))
                   (player2 game) (player1 game) in
     call (acquireFunds (id game) (gameWinner game) loser 2 0 0));;
  activeGameId_set (player1 game) 0;;
  activeGameId_set (player2 game) 0;;
  call (_onLobbyEnd (id game) (Bool_ true)).

(** *** commitMove (lines 135-156), a [@runtimeMethod()]

    The second assertion is given [a || b] (line 141) and the branch that
    picks the slot is a JavaScript [if] (line 146). *)
Definition commitMove (gameId : Z) (commitment : Field) : M Game :=
  runtimeMethod (
  let sender := sender env in
  let* game := games_get gameId in
  assert (PublicKey_equals (gameWinner game) PublicKey_empty)
         "Game already finished";;
  assert (js_or (PublicKey_equals sender (player1 game))
                (PublicKey_equals sender (player2 game)))
         "You are not a player in this game";;
  assert (UInt64_lessThanOrEqual (height env) (commitmentDeadline game))
         "Commitment period has ended";;
  let game :=
    if ToBoolean (PublicKey_equals sender (player1 game))
    then set_player1Commitment commitment game
    else set_player2Commitment commitment game in
  let game := set_lastMoveBlockHeight (height env) game in
  games_set gameId game;;
  ret game).

(** The block of [revealMove] that starts the next round (lines 204-210). *)
Definition nextRound (game : Game) : M Game :=
  let game := set_player1Commitment (mkField 0) game in
  let game := set_player2Commitment (mkField 0) game in
  let game := set_player1Move (mkRPSLSMove (mkField (-1)) (mkField 0)) game in
  let game := set_player2Move (mkRPSLSMove (mkField (-1)) (mkField 0)) game in
  let* d := UInt64_add (height env) MOVE_TIME_LIMIT in
  let game := set_commitmentDeadline d game in
  let* w := UInt64_mul MOVE_TIME_LIMIT 2 in
  let* d := UInt64_add (height env) w in
  let game := set_revealDeadline d game in
  ret game.

(** The block of [revealMove] that resolves a round (lines 188-211). *)
Definition resolveRound (game : Game) : M (Game * option PublicKey) :=
  let roundWinner :=
    determineWinner (move (player1Move game)) (move (player2Move game))
                    (player1 game) (player2 game) in
  let game :=
    if ToBoolean (PublicKey_equals roundWinner (player1 game))
    then set_player1Wins (Field_add (player1Wins game) (mkField 1)) game
    else if ToBoolean (PublicKey_equals roundWinner (player2 game))
         then set_player2Wins (Field_add (player2Wins game) (mkField 1)) game
         else game in
  let* game :=
    if ToBoolean (Field_equals (player1Wins game) (mkField ROUNDS_TO_WIN))
    then let game := set_gameWinner (player1 game) game in
         endGame game;; ret game
    else if ToBoolean (Field_equals (player2Wins game) (mkField ROUNDS_TO_WIN))
         then let game := set_gameWinner (player2 game) game in
              endGame game;; ret game
         else nextRound game in
  ret (game, Some roundWinner).

(** *** revealMove (lines 165-218), a [@runtimeMethod()]

    As in [commitMove], the second assertion is given [a || b] (line 171)
    and the slot is picked by a JavaScript [if] (line 177); the guard of the
    resolution block is [!a && !b] (line 187). *)
Definition revealMove (gameId : Z) (move_ : RPSLSMove)
  : M (Game * option PublicKey) :=
  runtimeMethod (
  let sender := sender env in
  let* game := games_get gameId in
  assert (PublicKey_equals (gameWinner game) PublicKey_empty)
         "Game already finished";;
  assert (js_or (PublicKey_equals sender (player1 game))
                (PublicKey_equals sender (player2 game)))
         "You are not a player in this game";;
  assert (UInt64_lessThanOrEqual (height env) (revealDeadline game))
         "Reveal period has ended";;
  let commitment := Poseidon_hash [move move_; salt move_] in
  let* game :=
    if ToBoolean (PublicKey_equals sender (player1 game))
    then assert (Field_equals commitment (player1Commitment game))
                "Revealed move does not match commitment";;
         ret (set_player1Move move_ game)
    else assert (Field_equals commitment (player2Commitment game))
                "Revealed move does not match commitment";;
         ret (set_player2Move move_ game) in
  let* (game, roundWinner) :=
    if js_not (Field_equals (move (player1Move game)) (mkField (-1)))
       && js_not (Field_equals (move (player2Move game)) (mkField (-1)))
    then resolveRound game
    else ret (game, None) in
  let game := set_lastMoveBlockHeight (height env) game in
  games_set gameId game;;
  ret (game, roundWinner)).

(** *** claimTimeoutVictory (lines 226-244), a [@runtimeMethod()]

    The first assertion does not stop the method, so the checked addition
    of line 232 is made on a concluded record too.  No JavaScript operator is applied to a [Bool] here: both assertions get
    a single [Bool] and the winner is picked by [Provable.if] (line 239). *)
Definition claimTimeoutVictory (gameId : Z) : M Game :=
  runtimeMethod (
  let* game := games_get gameId in
  assert (PublicKey_equals (gameWinner game) PublicKey_empty)
         "Game already finished";;
  let currentHeight := height env in
  let* limit := UInt64_add (lastMoveBlockHeight game) MOVE_TIME_LIMIT in
  assert (UInt64_greaterThan currentHeight limit)
         "Opponent has not timed out yet";;
  let sender := sender env in
  let isPlayer1 := PublicKey_equals sender (player1 game) in
  let game :=
    set_gameWinner (Provable_if isPlayer1 (player1 game) (player2 game)) game in
  endGame game;;
  games_set gameId game;;
  ret game).

(** *** initGame (lines 296-323), not a runtime method: it runs inside the
    transaction of its caller

    The fee is a [ProtoUInt64] (line 317); the block height is an o1js
    [UInt64].  The record is built before the test; the test is a JavaScript [if] on
    [shouldInit.equals(Bool(true))] (line 315).  The [else] branch only
    logs a warning. *)
Definition initGame (lobby : Lobby) (shouldInit : Bool) : M Z :=
  let* gameId := super_initGame lobby shouldInit in
  let* d1 := UInt64_add (height env) MOVE_TIME_LIMIT in
  let* w := UInt64_mul MOVE_TIME_LIMIT 2 in
  let* d2 := UInt64_add (height env) w in
  let game :=
    mkGame gameId (fst (players lobby)) (snd (players lobby))
           (mkField 0) (mkField 0)
           (mkRPSLSMove (mkField (-1)) (mkField 0))
           (mkRPSLSMove (mkField (-1)) (mkField 0))
           (mkField 0) (mkField 0)
           d1 d2 PublicKey_empty (height env) in
  (if ToBoolean (Bool_equals shouldInit (Bool_ true)) then
     games_set gameId game;;
     let* fund := ProtoUInt64_mul (participationFee lobby) 2 in
     gameFund_set gameId fund
   else
     ret tt);;
  ret gameId.

(** *** getGameState (lines 331-333), a [@runtimeMethod()] *)
Definition getGameState (gameId : Z) : M Game := runtimeMethod (games_get gameId).

End PowerClash.

(** ** Runs of transactions *)

(** The transactions players can send. *)
Inductive Tx :=
| TxCommit (env : Env) (gameId : Z) (commitment : Field)
| TxReveal (env : Env) (gameId : Z) (move_ : RPSLSMove)
| TxClaim (env : Env) (gameId : Z).

Section Runs.

Variable Poseidon_hash : list Field -> Field.

Definition apply_tx (t : Tx) (st : State) : State :=
  match t with
  | TxCommit env gameId commitment =>
      state_after (commitMove env gameId commitment) st
  | TxReveal env gameId move_ =>
      state_after (revealMove Poseidon_hash env gameId move_) st
  | TxClaim env gameId =>
      state_after (claimTimeoutVictory env gameId) st
  end.

Definition run (txs : list Tx) (st : State) : State :=
  fold_left (fun st t => apply_tx t st) txs st.

End Runs.

(** ** Vocabulary of the statements *)

(** The state [endGame] leaves: the two pointers cleared and the two calls
    of the even split recorded. *)
Definition split_settled (game : Game) (st : State) : State :=
  mkState (games st) (gameFund st)
          (<[player2 game := 0]> (<[player1 game := 0]> (activeGameId st)))
          (baseCalls st ++ [acquireFunds (id game) (player1 game) (player2 game) 1 1 0]
                        ++ [_onLobbyEnd (id game) (Bool_ true)]).

(** The slot of the record that holds the revealed move of [player]. *)
Definition moveOf (player : PublicKey) (game : Game) : RPSLSMove :=
  if decide (player = player1 game) then player1Move game else player2Move game.

(** The slot that holds the commitment of [player]. *)
Definition commitmentOf (player : PublicKey) (game : Game) : Field :=
  if decide (player = player1 game) then player1Commitment game
  else player2Commitment game.

(** The sentinel of an unrevealed move, [Field(-1)]. *)
Definition unset_move : RPSLSMove := mkRPSLSMove (mkField (-1)) (mkField 0).

(** The record [initGame] builds for match [gameId] at block [h]. *)
Definition fresh_game (gameId : Z) (lobby : Lobby) (h : Z) : Game :=
  mkGame gameId (fst (players lobby)) (snd (players lobby)) 0 0
         unset_move unset_move 0 0
         (h + MOVE_TIME_LIMIT) (h + 2 * MOVE_TIME_LIMIT) PublicKey_empty h.

(** ** Sample data *)
Definition alice : PublicKey := mkPublicKey 11 false.
Definition bob : PublicKey := mkPublicKey 22 true.
Definition carol : PublicKey := mkPublicKey 33 true.

(** A stand-in for the hash, enough to run the methods on examples. *)
Definition sample_hash (l : list Field) : Field :=
  fold_right (fun a b => 31 * b + a + 1) 7 l.

(** A stand-in for the lobby bookkeeping: match id 7, nothing written. *)
Definition sample_super (lobby : Lobby) (shouldInit : Bool) : M Z :=
  fun st => Ok 7 st.

Definition sample_lobby : Lobby := mkLobby (alice, bob) 5.

Definition empty_state : State := mkState ∅ ∅ ∅ [].

(** Match 7 between alice and bob, opened at block 10. *)
Definition sample_game : Game := fresh_game 7 sample_lobby 10.

Definition sample_state : State := put_game 7 sample_game empty_state.

(** Match 7 with its last move stamped at the largest block height. *)
Definition late_game : Game := set_lastMoveBlockHeight UInt64_MAX sample_game.

Definition late_state : State := put_game 7 late_game empty_state.

(** Match 7 concluded in favour of alice. *)
Definition won_game : Game := set_gameWinner alice sample_game.

Definition won_state : State := put_game 7 won_game empty_state.

(** Match 7 with both commitments in and bob's move (2, salt 5) already in
    its slot; alice has committed to (0, salt 11). *)
Definition pending_game : Game :=
  set_player2Move (mkRPSLSMove 2 5)
    (set_player2Commitment (sample_hash [2; 5])
       (set_player1Commitment (sample_hash [0; 11]) sample_game)).

Definition pending_state : State := put_game 7 pending_game empty_state.

(** Match 7 with both moves in their slots. *)
Definition revealed_game : Game := set_player1Move (mkRPSLSMove 0 11) pending_game.

(** ** Vocabulary of the further properties *)

(** The match a transaction is addressed to. *)
Definition tx_gameId (t : Tx) : Z :=
  match t with
  | TxCommit _ gameId _ => gameId
  | TxReveal _ gameId _ => gameId
  | TxClaim _ gameId => gameId
  end.

(** Two records that agree on everything but player1's commitment and
    move slot, the winner and the stamp of the last move. *)
Definition same_match (g g' : Game) : Prop :=
  id g' = id g /\ player1 g' = player1 g /\ player2 g' = player2 g
  /\ player2Commitment g' = player2Commitment g
  /\ player2Move g' = player2Move g
  /\ player1Wins g' = player1Wins g /\ player2Wins g' = player2Wins g
  /\ commitmentDeadline g' = commitmentDeadline g
  /\ revealDeadline g' = revealDeadline g.

(** The five moves. *)
Definition all_moves : list Z := [0; 1; 2; 3; 4].

(** The moves against which [m], played by player1, gives [winner]. *)
Definition outcomes_for (m : Z) (p1 p2 winner : PublicKey) : list Z :=
  filter (fun m2 => determineWinner m m2 p1 p2 = winner) all_moves.

(** The transactions that carry a move: commits and reveals. *)
Definition is_move (t : Tx) : bool :=
  match t with
  | TxClaim _ _ => false
  | _ => true
  end.



(** * Properties *)

(** ** JavaScript operators on a [Bool] *)

Lemma js_or_first (a b : Bool) : js_or a b = a.
Proof. reflexivity. Qed.

Lemma js_not_false (a : Bool) : js_not a = false.
Proof. reflexivity. Qed.

(** ** Equality tests *)

Lemma PublicKey_equals_spec (a b : PublicKey) :
  toBoolean (PublicKey_equals a b) = true <-> a = b.
Proof.
  destruct a as [xa oa], b as [xb ob]; cbn.
  rewrite andb_true_iff, Z.eqb_eq, Bool.eqb_true_iff.
  split; [intros [-> ->]; reflexivity | intros [= -> ->]; auto].
Qed.

Lemma PublicKey_equals_refl (a : PublicKey) :
  toBoolean (PublicKey_equals a a) = true.
Proof. apply PublicKey_equals_spec; reflexivity. Qed.

Lemma PublicKey_equals_neq (a b : PublicKey) :
  a <> b -> toBoolean (PublicKey_equals a b) = false.
Proof.
  intros Hne. destruct (toBoolean (PublicKey_equals a b)) eqn:E; [|reflexivity].
  apply PublicKey_equals_spec in E. contradiction.
Qed.

(** ** The winner resolver *)

(** The moves of the game are the five numbers 0..4. *)
Lemma move_cases (m : Z) :
  0 <= m <= 4 -> m = 0 \/ m = 1 \/ m = 2 \/ m = 3 \/ m = 4.
Proof. lia. Qed.

Ltac each_move m H :=
  destruct (move_cases m H) as [-> | [-> | [-> | [-> | ->]]]].

Lemma beats_In (m1 m2 : Z) :
  beats m1 m2 = true <-> In (m1, m2) beats_table.
Proof.
  unfold beats. rewrite existsb_exists. split.
  - intros [[a b] [Hin Heq]]. cbn [fst snd] in Heq.
    apply andb_true_iff in Heq as [Ha Hb].
    apply Z.eqb_eq in Ha, Hb. subst. exact Hin.
  - intros Hin. exists (m1, m2). split; [exact Hin|].
    cbn [fst snd]. rewrite !Z.eqb_refl. reflexivity.
Qed.

Lemma beats_not_In (m1 m2 : Z) :
  beats m1 m2 = false <-> ~ In (m1, m2) beats_table.
Proof.
  rewrite <- beats_In. destruct (beats m1 m2); split; congruence.
Qed.

(** What [determineWinner] computes, read against the table. *)
Lemma determineWinner_eval (move1 move2 : Z) (p1 p2 : PublicKey) :
  0 <= move1 <= 4 -> 0 <= move2 <= 4 ->
  determineWinner move1 move2 p1 p2 =
    if move1 =? move2 then PublicKey_empty
    else if beats move1 move2 then p1 else p2.
Proof.
  intros H1 H2. each_move move1 H1; each_move move2 H2; reflexivity.
Qed.

(** No move beats itself, and of two distinct moves exactly one beats the
    other. *)
Lemma beats_irrefl (m : Z) : beats m m = false.
Proof.
  apply beats_not_In. unfold beats_table. cbn [In].
  intros H. repeat destruct H as [H | H]; try (injection H; lia); exact H.
Qed.

Lemma beats_one_direction (m1 m2 : Z) :
  0 <= m1 <= 4 -> 0 <= m2 <= 4 -> m1 <> m2 ->
  beats m1 m2 = negb (beats m2 m1).
Proof.
  intros H1 H2 Hne.
  each_move m1 H1; each_move m2 H2; try reflexivity; destruct (Hne eq_refl).
Qed.

(** C1.  For moves in 0..4, [determineWinner] returns the empty key when
    the moves are equal, player1 when (move1, move2) is a pair of the table
    and player2 otherwise; every pair of distinct moves is in the table in
    exactly one direction; and when the two players and the empty key are
    three different keys, each result is returned in exactly one of those
    cases. *)
Theorem determineWinner_table (move1 move2 : Z) (p1 p2 : PublicKey) :
  0 <= move1 <= 4 -> 0 <= move2 <= 4 ->
  (move1 = move2 -> determineWinner move1 move2 p1 p2 = PublicKey_empty)
  /\ (In (move1, move2) beats_table -> determineWinner move1 move2 p1 p2 = p1)
  /\ (move1 <> move2 -> ~ In (move1, move2) beats_table ->
      determineWinner move1 move2 p1 p2 = p2)
  /\ (move1 <> move2 ->
      (In (move1, move2) beats_table <-> ~ In (move2, move1) beats_table))
  /\ (p1 <> PublicKey_empty -> p2 <> PublicKey_empty -> p1 <> p2 ->
      (determineWinner move1 move2 p1 p2 = PublicKey_empty <-> move1 = move2)
      /\ (determineWinner move1 move2 p1 p2 = p1 <-> In (move1, move2) beats_table)
      /\ (determineWinner move1 move2 p1 p2 = p2 <->
          move1 <> move2 /\ ~ In (move1, move2) beats_table)).
Proof.
  intros H1 H2.
  pose proof (determineWinner_eval move1 move2 p1 p2 H1 H2) as Hev.
  pose proof (beats_In move1 move2) as Hin.
  assert (Hirr : move1 = move2 -> beats move1 move2 = false)
    by (intros ->; apply beats_irrefl).
  rewrite Hev. clear Hev.
  destruct (Z.eqb_spec move1 move2) as [Heq | Hne].
  - specialize (Hirr Heq). rewrite Hirr in *.
    assert (Hnin : ~ In (move1, move2) beats_table)
      by (intros Hc; apply Hin in Hc; discriminate).
    repeat split; try tauto; try congruence.
  - pose proof (beats_one_direction move1 move2 H1 H2 Hne) as Hdir.
    pose proof (beats_In move2 move1) as Hin'.
    destruct (beats move1 move2) eqn:Hb.
    + assert (Hyes : In (move1, move2) beats_table) by (apply Hin; reflexivity).
      destruct (beats move2 move1); [discriminate|].
      assert (Hno : ~ In (move2, move1) beats_table)
        by (intros Hc; apply Hin' in Hc; discriminate).
      repeat split; try tauto; try congruence.
    + assert (Hno : ~ In (move1, move2) beats_table)
        by (intros Hc; apply Hin in Hc; discriminate).
      destruct (beats move2 move1); [|discriminate].
      assert (Hyes : In (move2, move1) beats_table) by (apply Hin'; reflexivity).
      repeat split; try tauto; try congruence.
Qed.

Lemma determineWinner_table_witness :
  (0 = 2 -> determineWinner 0 2 alice bob = PublicKey_empty)
  /\ (In (0, 2) beats_table -> determineWinner 0 2 alice bob = alice)
  /\ (0 <> 2 -> ~ In (0, 2) beats_table -> determineWinner 0 2 alice bob = bob)
  /\ (0 <> 2 -> (In (0, 2) beats_table <-> ~ In (2, 0) beats_table))
  /\ (alice <> PublicKey_empty -> bob <> PublicKey_empty -> alice <> bob ->
      (determineWinner 0 2 alice bob = PublicKey_empty <-> 0 = 2)
      /\ (determineWinner 0 2 alice bob = alice <-> In (0, 2) beats_table)
      /\ (determineWinner 0 2 alice bob = bob <->
          0 <> 2 /\ ~ In (0, 2) beats_table)).
Proof.
  apply (determineWinner_table 0 2 alice bob); lia.
Defined.

(** ** What each method computes *)

#[local] Arguments PublicKey_equals : simpl never.
#[local] Arguments stored : simpl never.
#[local] Arguments put_game : simpl never.
#[local] Arguments endGame : simpl never.
#[local] Arguments split_settled : simpl never.

Lemma stored_Some (gameId : Z) (st : State) (g : Game) :
  games st !! gameId = Some g -> stored gameId st = g.
Proof. unfold stored. intros ->. reflexivity. Qed.

Lemma endGame_run (game : Game) (st : State) :
  endGame game st = Ok tt (split_settled game st).
Proof.
  unfold endGame, bind, call, activeGameId_set, split_settled, ToBoolean.
  cbn. rewrite <- app_assoc. reflexivity.
Qed.

Lemma commitMove_run (env : Env) (gameId : Z) (commitment : Field) (st : State) :
  commitMove env gameId commitment st =
    let g := stored gameId st in
    if negb (toBoolean (PublicKey_equals (gameWinner g) PublicKey_empty))
    then Failed (AssertFailed "Game already finished")
    else if negb (toBoolean (PublicKey_equals (sender env) (player1 g)))
    then Failed (AssertFailed "You are not a player in this game")
    else if negb (height env <=? commitmentDeadline g)
    then Failed (AssertFailed "Commitment period has ended")
    else
      let g' := set_lastMoveBlockHeight (height env)
                  (set_player1Commitment commitment g) in
      Ok g' (put_game gameId g' st).
Proof.
  unfold commitMove, runtimeMethod, bind, games_get, games_set, assert, ret,
    js_or, ToBoolean.
  cbn.
  destruct (toBoolean (PublicKey_equals (gameWinner (stored gameId st)) PublicKey_empty)),
    (toBoolean (PublicKey_equals (sender env) (player1 (stored gameId st)))),
    (height env <=? commitmentDeadline (stored gameId st)); reflexivity.
Qed.

Lemma revealMove_run (Poseidon_hash : list Field -> Field)
      (env : Env) (gameId : Z) (mv : RPSLSMove) (st : State) :
  revealMove Poseidon_hash env gameId mv st =
    let g := stored gameId st in
    if negb (toBoolean (PublicKey_equals (gameWinner g) PublicKey_empty))
    then Failed (AssertFailed "Game already finished")
    else if negb (toBoolean (PublicKey_equals (sender env) (player1 g)))
    then Failed (AssertFailed "You are not a player in this game")
    else if negb (height env <=? revealDeadline g)
    then Failed (AssertFailed "Reveal period has ended")
    else if negb (Poseidon_hash [move mv; salt mv] =? player1Commitment g)
    then Failed (AssertFailed "Revealed move does not match commitment")
    else
      let g' := set_lastMoveBlockHeight (height env) (set_player1Move mv g) in
      Ok (g', None) (put_game gameId g' st).
Proof.
  unfold revealMove, runtimeMethod, bind, games_get, games_set, assert, ret,
    js_or, js_not, ToBoolean.
  cbn.
  destruct (toBoolean (PublicKey_equals (gameWinner (stored gameId st)) PublicKey_empty)),
    (toBoolean (PublicKey_equals (sender env) (player1 (stored gameId st)))),
    (height env <=? revealDeadline (stored gameId st)),
    (Poseidon_hash [move mv; salt mv] =? player1Commitment (stored gameId st));
    reflexivity.
Qed.

(** On a concluded record the first assertion fails and the body runs on,
    so the checked addition of line 232 is still made. *)
Lemma claimTimeoutVictory_run (env : Env) (gameId : Z) (st : State) :
  claimTimeoutVictory env gameId st =
    let g := stored gameId st in
    let limit := lastMoveBlockHeight g + MOVE_TIME_LIMIT in
    if negb (toBoolean (PublicKey_equals (gameWinner g) PublicKey_empty))
    then (if negb ((0 <=? limit) && (limit <=? UInt64_MAX))
          then Failed RangeCheckFailed
          else Failed (AssertFailed "Game already finished"))
    else if negb ((0 <=? limit) && (limit <=? UInt64_MAX))
    then Failed RangeCheckFailed
    else if negb (limit <? height env)
    then Failed (AssertFailed "Opponent has not timed out yet")
    else
      let g' := set_gameWinner
                  (if toBoolean (PublicKey_equals (sender env) (player1 g))
                   then player1 g else player2 g) g in
      Ok g' (put_game gameId g' (split_settled g' st)).
Proof.
  unfold claimTimeoutVictory, runtimeMethod, bind, games_get, games_set, assert,
    ret, UInt64_add, UInt64_checked, UInt64_greaterThan, Provable_if.
  cbn.
  destruct (toBoolean (PublicKey_equals (gameWinner (stored gameId st)) PublicKey_empty)),
    ((0 <=? lastMoveBlockHeight (stored gameId st) + MOVE_TIME_LIMIT)
     && (lastMoveBlockHeight (stored gameId st) + MOVE_TIME_LIMIT <=? UInt64_MAX)),
    (lastMoveBlockHeight (stored gameId st) + MOVE_TIME_LIMIT <? height env);
    cbn; rewrite ?endGame_run; reflexivity.
Qed.

Lemma games_put_game_eq (gameId : Z) (g : Game) (st : State) :
  games (put_game gameId g st) !! gameId = Some g.
Proof. unfold put_game. cbn. apply lookup_insert_eq. Qed.

Lemma games_put_game_ne (gameId gameId' : Z) (g : Game) (st : State) :
  gameId' <> gameId ->
  games (put_game gameId' g st) !! gameId = games st !! gameId.
Proof. intros Hne. unfold put_game. cbn. apply lookup_insert_ne. exact Hne. Qed.

Lemma in_progress_test (g : Game) :
  gameWinner g = PublicKey_empty ->
  toBoolean (PublicKey_equals (gameWinner g) PublicKey_empty) = true.
Proof. intros ->. apply PublicKey_equals_refl. Qed.

Lemma concluded_test (g : Game) :
  gameWinner g <> PublicKey_empty ->
  toBoolean (PublicKey_equals (gameWinner g) PublicKey_empty) = false.
Proof. apply PublicKey_equals_neq. Qed.

(** ** The timeout claim *)

(** C3, as amended.  For an in-progress game whose
    [lastMoveBlockHeight + MOVE_TIME_LIMIT] fits in a UInt64, and a caller
    who is one of its two players: the claim fails with 'Opponent has not
    timed out yet' exactly when the block height is at most
    [lastMoveBlockHeight + MOVE_TIME_LIMIT]; strictly after, it succeeds,
    the winner is the caller, [endGame] has run on the concluded record and
    the record is stored. *)
Theorem claimTimeoutVictory_window (env : Env) (gameId : Z) (st : State) (g : Game) :
  games st !! gameId = Some g ->
  gameWinner g = PublicKey_empty ->
  sender env = player1 g \/ sender env = player2 g ->
  0 <= lastMoveBlockHeight g ->
  lastMoveBlockHeight g + MOVE_TIME_LIMIT <= UInt64_MAX ->
  (claimTimeoutVictory env gameId st
     = Failed (AssertFailed "Opponent has not timed out yet")
   <-> height env <= lastMoveBlockHeight g + MOVE_TIME_LIMIT)
  /\ (lastMoveBlockHeight g + MOVE_TIME_LIMIT < height env ->
      exists st1,
        endGame (set_gameWinner (sender env) g) st = Ok tt st1
        /\ claimTimeoutVictory env gameId st
           = Ok (set_gameWinner (sender env) g)
                (put_game gameId (set_gameWinner (sender env) g) st1)).
Proof.
  intros Hg Hprog Hreg Hlast Hfit.
  rewrite claimTimeoutVictory_run. cbv zeta.
  rewrite (stored_Some _ _ _ Hg), (in_progress_test g Hprog). cbn [negb].
  assert (Hrange : (0 <=? lastMoveBlockHeight g + MOVE_TIME_LIMIT)
                   && (lastMoveBlockHeight g + MOVE_TIME_LIMIT <=? UInt64_MAX) = true).
  { apply andb_true_iff. split; apply Z.leb_le; unfold MOVE_TIME_LIMIT in *; lia. }
  rewrite Hrange. cbn [negb].
  assert (Hwho : (if toBoolean (PublicKey_equals (sender env) (player1 g))
                  then player1 g else player2 g) = sender env).
  { destruct (toBoolean (PublicKey_equals (sender env) (player1 g))) eqn:E.
    - apply PublicKey_equals_spec in E. congruence.
    - destruct Hreg as [H1 | H2]; [|congruence].
      rewrite H1, PublicKey_equals_refl in E. discriminate. }
  rewrite Hwho.
  destruct (Z.ltb_spec (lastMoveBlockHeight g + MOVE_TIME_LIMIT) (height env)) as [Hlt | Hle];
    cbn [negb].
  - split.
    + split; [discriminate | lia].
    + intros _. eexists. split; [apply endGame_run | reflexivity].
  - split.
    + split; [intros _; exact Hle | reflexivity].
    + intros Hc. lia.
Qed.

(** C10.  The claim does not look at who sends it: on an in-progress game
    whose window has elapsed, a sender who is neither player1 nor player2
    succeeds, the winner written is player2, [endGame] has run on the
    concluded record and the record is stored. *)
Theorem claimTimeoutVictory_stranger (env : Env) (gameId : Z) (st : State) (g : Game) :
  games st !! gameId = Some g ->
  gameWinner g = PublicKey_empty ->
  0 <= lastMoveBlockHeight g ->
  height env <= UInt64_MAX ->
  lastMoveBlockHeight g + MOVE_TIME_LIMIT < height env ->
  sender env <> player1 g ->
  sender env <> player2 g ->
  exists st1 st',
    endGame (set_gameWinner (player2 g) g) st = Ok tt st1
    /\ claimTimeoutVictory env gameId st = Ok (set_gameWinner (player2 g) g) st'
    /\ st' = put_game gameId (set_gameWinner (player2 g) g) st1
    /\ games st' !! gameId = Some (set_gameWinner (player2 g) g)
    /\ gameWinner (set_gameWinner (player2 g) g) = player2 g.
Proof.
  intros Hg Hprog Hlast Hmax Hlate Hn1 Hn2.
  rewrite claimTimeoutVictory_run. cbv zeta.
  rewrite (stored_Some _ _ _ Hg), (in_progress_test g Hprog). cbn [negb].
  assert (Hrange : (0 <=? lastMoveBlockHeight g + MOVE_TIME_LIMIT)
                   && (lastMoveBlockHeight g + MOVE_TIME_LIMIT <=? UInt64_MAX) = true).
  { apply andb_true_iff. split; apply Z.leb_le; unfold MOVE_TIME_LIMIT in *; lia. }
  rewrite Hrange. cbn [negb].
  rewrite (proj2 (Z.ltb_lt _ _) Hlate). cbn [negb].
  rewrite (PublicKey_equals_neq _ _ Hn1).
  eexists. eexists. split; [apply endGame_run|].
  split; [reflexivity|]. split; [reflexivity|].
  split; [apply games_put_game_eq | reflexivity].
Qed.

Lemma claimTimeoutVictory_window_witness :
  (claimTimeoutVictory (mkEnv alice 61) 7 sample_state
     = Failed (AssertFailed "Opponent has not timed out yet")
   <-> 61 <= lastMoveBlockHeight sample_game + MOVE_TIME_LIMIT)
  /\ (lastMoveBlockHeight sample_game + MOVE_TIME_LIMIT < 61 ->
      exists st1,
        endGame (set_gameWinner alice sample_game) sample_state = Ok tt st1
        /\ claimTimeoutVictory (mkEnv alice 61) 7 sample_state
           = Ok (set_gameWinner alice sample_game)
                (put_game 7 (set_gameWinner alice sample_game) st1)).
Proof.
  apply (claimTimeoutVictory_window (mkEnv alice 61) 7 sample_state sample_game).
  - vm_compute. reflexivity.
  - reflexivity.
  - left. reflexivity.
  - vm_compute. discriminate.
  - vm_compute. discriminate.
Defined.

(** C3, as stated, fails where the addition leaves the UInt64 range: with
    the last move stamped at 2^64 - 1 and the claim sent in that same
    block, the block height is at most
    [lastMoveBlockHeight + MOVE_TIME_LIMIT], yet the call does not fail
    with 'Opponent has not timed out yet' but on the range check. *)
Lemma claimTimeoutVictory_window_overflow :
  games late_state !! 7 = Some late_game
  /\ gameWinner late_game = PublicKey_empty
  /\ sender (mkEnv alice UInt64_MAX) = player1 late_game
  /\ claimTimeoutVictory (mkEnv alice UInt64_MAX) 7 late_state = Failed RangeCheckFailed
  /\ ~ (claimTimeoutVictory (mkEnv alice UInt64_MAX) 7 late_state
          = Failed (AssertFailed "Opponent has not timed out yet")
        <-> height (mkEnv alice UInt64_MAX)
            <= lastMoveBlockHeight late_game + MOVE_TIME_LIMIT).
Proof.
  assert (Hrun : claimTimeoutVictory (mkEnv alice UInt64_MAX) 7 late_state
                 = Failed RangeCheckFailed) by (vm_compute; reflexivity).
  split; [vm_compute; reflexivity|].
  split; [reflexivity|]. split; [reflexivity|]. split; [exact Hrun|].
  rewrite Hrun. intros [_ Hback].
  assert (Hle : height (mkEnv alice UInt64_MAX)
                <= lastMoveBlockHeight late_game + MOVE_TIME_LIMIT)
    by (vm_compute; discriminate).
  specialize (Hback Hle). discriminate Hback.
Qed.

Lemma claimTimeoutVictory_stranger_witness :
  exists st1 st',
    endGame (set_gameWinner bob sample_game) sample_state = Ok tt st1
    /\ claimTimeoutVictory (mkEnv carol 61) 7 sample_state
       = Ok (set_gameWinner bob sample_game) st'
    /\ st' = put_game 7 (set_gameWinner bob sample_game) st1
    /\ games st' !! 7 = Some (set_gameWinner bob sample_game)
    /\ gameWinner (set_gameWinner bob sample_game) = bob.
Proof.
  apply (claimTimeoutVictory_stranger (mkEnv carol 61) 7 sample_state sample_game).
  - vm_compute. reflexivity.
  - reflexivity.
  - vm_compute. discriminate.
  - vm_compute. discriminate.
  - vm_compute. reflexivity.
  - discriminate.
  - discriminate.
Defined.

(** ** A concluded match is terminal *)

Lemma commitMove_concluded (env : Env) (gameId : Z) (c : Field) (st : State) (g : Game) :
  games st !! gameId = Some g -> gameWinner g <> PublicKey_empty ->
  commitMove env gameId c st = Failed (AssertFailed "Game already finished").
Proof.
  intros Hg Hw. rewrite commitMove_run. cbv zeta.
  rewrite (stored_Some _ _ _ Hg), (concluded_test g Hw). reflexivity.
Qed.

Lemma revealMove_concluded (Poseidon_hash : list Field -> Field)
      (env : Env) (gameId : Z) (mv : RPSLSMove) (st : State) (g : Game) :
  games st !! gameId = Some g -> gameWinner g <> PublicKey_empty ->
  revealMove Poseidon_hash env gameId mv st
  = Failed (AssertFailed "Game already finished").
Proof.
  intros Hg Hw. rewrite revealMove_run. cbv zeta.
  rewrite (stored_Some _ _ _ Hg), (concluded_test g Hw). reflexivity.
Qed.

Lemma claimTimeoutVictory_concluded (env : Env) (gameId : Z) (st : State) (g : Game) :
  games st !! gameId = Some g -> gameWinner g <> PublicKey_empty ->
  0 <= lastMoveBlockHeight g + MOVE_TIME_LIMIT <= UInt64_MAX ->
  claimTimeoutVictory env gameId st = Failed (AssertFailed "Game already finished").
Proof.
  intros Hg Hw [Hlo Hhi]. rewrite claimTimeoutVictory_run. cbv zeta.
  rewrite (stored_Some _ _ _ Hg), (concluded_test g Hw).
  rewrite (proj2 (Z.leb_le _ _) Hlo), (proj2 (Z.leb_le _ _) Hhi). reflexivity.
Qed.



(** A method writes [games] only under the id it was called with. *)
Lemma commitMove_frame (env : Env) (gameId' gameId : Z) (c : Field) (st : State) :
  gameId' <> gameId ->
  games (state_after (commitMove env gameId' c) st) !! gameId = games st !! gameId.
Proof.
  intros Hne. unfold state_after. rewrite commitMove_run. cbv zeta.
  repeat match goal with
         | |- context [if ?b then _ else _] => destruct b
         end; try reflexivity.
  apply games_put_game_ne. exact Hne.
Qed.

Lemma revealMove_frame (Poseidon_hash : list Field -> Field)
      (env : Env) (gameId' gameId : Z) (mv : RPSLSMove) (st : State) :
  gameId' <> gameId ->
  games (state_after (revealMove Poseidon_hash env gameId' mv) st) !! gameId
  = games st !! gameId.
Proof.
  intros Hne. unfold state_after. rewrite revealMove_run. cbv zeta.
  repeat match goal with
         | |- context [if ?b then _ else _] => destruct b
         end; try reflexivity.
  apply games_put_game_ne. exact Hne.
Qed.

Lemma claimTimeoutVictory_frame (env : Env) (gameId' gameId : Z) (st : State) :
  gameId' <> gameId ->
  games (state_after (claimTimeoutVictory env gameId') st) !! gameId
  = games st !! gameId.
Proof.
  intros Hne. unfold state_after. rewrite claimTimeoutVictory_run. cbv zeta.
  repeat match goal with
         | |- context [if negb ?b then _ else _] => destruct b; cbn [negb]
         end; try reflexivity.
  rewrite games_put_game_ne by exact Hne. reflexivity.
Qed.






(** ** Commit and reveal *)

(** What a successful [commitMove] tells about the call and its result. *)
Lemma commitMove_Ok_inv (env : Env) (gameId : Z) (c : Field)
      (st st1 : State) (g g1 : Game) :
  games st !! gameId = Some g ->
  commitMove env gameId c st = Ok g1 st1 ->
  gameWinner g = PublicKey_empty
  /\ sender env = player1 g
  /\ height env <= commitmentDeadline g
  /\ g1 = set_lastMoveBlockHeight (height env) (set_player1Commitment c g)
  /\ st1 = put_game gameId g1 st.
Proof.
  intros Hg. rewrite commitMove_run. cbv zeta. rewrite (stored_Some _ _ _ Hg).
  destruct (toBoolean (PublicKey_equals (gameWinner g) PublicKey_empty)) eqn:Ew;
    cbn [negb]; [|discriminate].
  destruct (toBoolean (PublicKey_equals (sender env) (player1 g))) eqn:Es;
    cbn [negb]; [|discriminate].
  destruct (Z.leb_spec (height env) (commitmentDeadline g)) as [Hle | Hgt];
    cbn [negb]; [|discriminate].
  intros [= <- <-].
  apply PublicKey_equals_spec in Ew, Es. auto.
Qed.

(** C7.  After a successful [commitMove] of the hash of (m, s) on a stored
    game, a [revealMove] of (m, s) by the same sender, at a block height
    within the reveal deadline, succeeds, stores the record and has (m, s)
    in the sender's move slot; a [revealMove] of any (m2, s2) whose hash
    differs from that commitment fails with 'Revealed move does not match
    commitment' and leaves the state as it was. *)
Theorem commit_reveal_round_trip (Poseidon_hash : list Field -> Field)
        (env1 env2 : Env) (gameId : Z) (m s : Field)
        (st st1 : State) (g g1 : Game) :
  games st !! gameId = Some g ->
  commitMove env1 gameId (Poseidon_hash [m; s]) st = Ok g1 st1 ->
  sender env2 = sender env1 ->
  height env2 <= revealDeadline g ->
  (exists g2 roundWinner st2,
      revealMove Poseidon_hash env2 gameId (mkRPSLSMove m s) st1
      = Ok (g2, roundWinner) st2
      /\ games st2 !! gameId = Some g2
      /\ moveOf (sender env1) g2 = mkRPSLSMove m s)
  /\ (forall m2 s2,
      Poseidon_hash [m2; s2] <> commitmentOf (sender env1) g1 ->
      revealMove Poseidon_hash env2 gameId (mkRPSLSMove m2 s2) st1
      = Failed (AssertFailed "Revealed move does not match commitment")
      /\ state_after (revealMove Poseidon_hash env2 gameId (mkRPSLSMove m2 s2)) st1
         = st1).
Proof.
  intros Hg Hc Hsame Hdl.
  destruct (commitMove_Ok_inv _ _ _ _ _ _ _ Hg Hc) as (Hw & Hs & _ & -> & ->).
  set (g1 := set_lastMoveBlockHeight (height env1)
               (set_player1Commitment (Poseidon_hash [m; s]) g)).
  assert (Hst : forall mv,
             revealMove Poseidon_hash env2 gameId mv (put_game gameId g1 st) =
             if negb (Poseidon_hash [move mv; salt mv] =? Poseidon_hash [m; s])
             then Failed (AssertFailed "Revealed move does not match commitment")
             else Ok (set_lastMoveBlockHeight (height env2) (set_player1Move mv g1), None)
                     (put_game gameId
                        (set_lastMoveBlockHeight (height env2) (set_player1Move mv g1))
                        (put_game gameId g1 st))).
  { intros mv. rewrite revealMove_run. cbv zeta.
    rewrite (stored_Some _ _ g1 (games_put_game_eq gameId g1 st)).
    change (gameWinner g1) with (gameWinner g).
    change (player1 g1) with (player1 g).
    change (revealDeadline g1) with (revealDeadline g).
    change (player1Commitment g1) with (Poseidon_hash [m; s]).
    rewrite (in_progress_test g Hw), Hsame, Hs, PublicKey_equals_refl.
    rewrite (proj2 (Z.leb_le _ _) Hdl). reflexivity. }
  split.
  - rewrite Hst. cbn [move salt]. rewrite Z.eqb_refl. cbn [negb].
    eexists _, _, _. split; [reflexivity|].
    split; [apply games_put_game_eq|].
    unfold moveOf. cbn. rewrite Hs. rewrite decide_True by reflexivity. reflexivity.
  - intros m2 s2 Hdiff.
    assert (Hne : Poseidon_hash [m2; s2] <> Poseidon_hash [m; s]).
    { intros E. apply Hdiff. unfold commitmentOf. rewrite Hs.
      cbn. rewrite decide_True by reflexivity. exact E. }
    unfold state_after. rewrite Hst. cbn [move salt].
    rewrite (proj2 (Z.eqb_neq _ _) Hne). cbn [negb]. split; reflexivity.
Qed.

Lemma commit_reveal_round_trip_witness :
  (exists g2 roundWinner st2,
      revealMove sample_hash (mkEnv alice 13) 7 (mkRPSLSMove 0 11)
        (state_after (commitMove (mkEnv alice 12) 7 (sample_hash [0; 11])) sample_state)
      = Ok (g2, roundWinner) st2
      /\ games st2 !! 7 = Some g2
      /\ moveOf alice g2 = mkRPSLSMove 0 11)
  /\ (forall m2 s2,
      sample_hash [m2; s2]
      <> commitmentOf alice
           (set_lastMoveBlockHeight 12
              (set_player1Commitment (sample_hash [0; 11]) sample_game)) ->
      revealMove sample_hash (mkEnv alice 13) 7 (mkRPSLSMove m2 s2)
        (state_after (commitMove (mkEnv alice 12) 7 (sample_hash [0; 11])) sample_state)
      = Failed (AssertFailed "Revealed move does not match commitment")
      /\ state_after
           (revealMove sample_hash (mkEnv alice 13) 7 (mkRPSLSMove m2 s2))
           (state_after (commitMove (mkEnv alice 12) 7 (sample_hash [0; 11])) sample_state)
         = state_after (commitMove (mkEnv alice 12) 7 (sample_hash [0; 11])) sample_state).
Proof.
  apply (commit_reveal_round_trip sample_hash (mkEnv alice 12) (mkEnv alice 13) 7 0 11
           sample_state _ sample_game
           (set_lastMoveBlockHeight 12
              (set_player1Commitment (sample_hash [0; 11]) sample_game))).
  - vm_compute. reflexivity.
  - vm_compute. reflexivity.
  - reflexivity.
  - vm_compute. discriminate.
Defined.

(** For player1 a commit before the deadline succeeds, whatever was
    committed before, and writes two fields only. *)
Lemma commitMove_player1_overwrites (env : Env) (gameId : Z) (c : Field)
      (st : State) (g : Game) :
  games st !! gameId = Some g ->
  gameWinner g = PublicKey_empty ->
  sender env = player1 g ->
  height env <= commitmentDeadline g ->
  exists g',
    commitMove env gameId c st = Ok g' (put_game gameId g' st)
    /\ g' = mkGame (id g) (player1 g) (player2 g) c (player2Commitment g)
                   (player1Move g) (player2Move g) (player1Wins g) (player2Wins g)
                   (commitmentDeadline g) (revealDeadline g) (gameWinner g)
                   (height env).
Proof.
  intros Hg Hw Hs Hdl. rewrite commitMove_run. cbv zeta.
  rewrite (stored_Some _ _ _ Hg), (in_progress_test g Hw), Hs,
    PublicKey_equals_refl, (proj2 (Z.leb_le _ _) Hdl).
  eexists. split; reflexivity.
Qed.

(** C9, on the code.  A commit sent by player2 (a key other than
    player1's) on an in-progress game before the commitment deadline fails
    with 'You are not a player in this game' and writes nothing: the
    argument of that assertion is [a || b] on two o1js [Bool] objects, which
    JavaScript evaluates to [a], the test against player1. *)
Theorem commitMove_rejects_player2 (env : Env) (gameId : Z) (c : Field)
        (st : State) (g : Game) :
  games st !! gameId = Some g ->
  gameWinner g = PublicKey_empty ->
  sender env = player2 g ->
  player2 g <> player1 g ->
  height env <= commitmentDeadline g ->
  commitMove env gameId c st
  = Failed (AssertFailed "You are not a player in this game")
  /\ state_after (commitMove env gameId c) st = st.
Proof.
  intros Hg Hw Hs Hne Hdl.
  assert (Hrun : commitMove env gameId c st
                 = Failed (AssertFailed "You are not a player in this game")).
  { rewrite commitMove_run. cbv zeta.
    rewrite (stored_Some _ _ _ Hg), (in_progress_test g Hw), Hs,
      (PublicKey_equals_neq _ _ Hne). reflexivity. }
  split; [exact Hrun|]. unfold state_after. rewrite Hrun. reflexivity.
Qed.

Lemma commitMove_rejects_player2_witness :
  commitMove (mkEnv bob 12) 7 (sample_hash [2; 5]) sample_state
  = Failed (AssertFailed "You are not a player in this game")
  /\ state_after (commitMove (mkEnv bob 12) 7 (sample_hash [2; 5])) sample_state
     = sample_state.
Proof.
  apply (commitMove_rejects_player2 (mkEnv bob 12) 7 (sample_hash [2; 5])
           sample_state sample_game).
  - vm_compute. reflexivity.
  - reflexivity.
  - reflexivity.
  - discriminate.
  - vm_compute. discriminate.
Defined.

(** ** Round resolution *)

(** C5, on the code.  A successful [revealMove] never enters the block
    that resolves a round: its guard is [!a && !b] on two o1js [Bool]
    objects, and [!] of an object is [false].  Whatever the two move slots
    hold afterwards, the call returns no round winner, writes the move into
    player1's slot and stamps [lastMoveBlockHeight]; commitments, the other
    move slot, both win counters, both deadlines and [gameWinner] are as
    before, and no inherited method is called. *)
Theorem revealMove_never_resolves (Poseidon_hash : list Field -> Field)
        (env : Env) (gameId : Z) (mv : RPSLSMove)
        (st st' : State) (g g' : Game) (roundWinner : option PublicKey) :
  games st !! gameId = Some g ->
  revealMove Poseidon_hash env gameId mv st = Ok (g', roundWinner) st' ->
  roundWinner = None
  /\ g' = mkGame (id g) (player1 g) (player2 g)
                 (player1Commitment g) (player2Commitment g)
                 mv (player2Move g) (player1Wins g) (player2Wins g)
                 (commitmentDeadline g) (revealDeadline g) (gameWinner g)
                 (height env)
  /\ st' = put_game gameId g' st
  /\ baseCalls st' = baseCalls st.
Proof.
  intros Hg. rewrite revealMove_run. cbv zeta. rewrite (stored_Some _ _ _ Hg).
  repeat match goal with
         | |- context [if negb ?b then _ else _] => destruct b; cbn [negb]
         end; try discriminate.
  intros [= <- <- <-]. repeat split.
Qed.

Lemma revealMove_never_resolves_witness :
  exists g' st',
    revealMove sample_hash (mkEnv alice 13) 7 (mkRPSLSMove 0 11) pending_state
    = Ok (g', None) st'
    /\ g' = set_lastMoveBlockHeight 13 revealed_game
    /\ st' = put_game 7 g' pending_state
    /\ baseCalls st' = baseCalls pending_state.
Proof.
  eexists _, _.
  assert (Hrun : revealMove sample_hash (mkEnv alice 13) 7 (mkRPSLSMove 0 11)
                   pending_state
                 = Ok (set_lastMoveBlockHeight 13 revealed_game, None)
                      (put_game 7 (set_lastMoveBlockHeight 13 revealed_game)
                         pending_state))
    by (vm_compute; reflexivity).
  split; [exact Hrun|].
  destruct (revealMove_never_resolves sample_hash (mkEnv alice 13) 7
              (mkRPSLSMove 0 11) pending_state _ pending_game _ _
              ltac:(vm_compute; reflexivity) Hrun) as (_ & _ & Hst & Hcalls).
  split; [reflexivity|]. split; [exact Hst | exact Hcalls].
Defined.

(** At that input both move slots hold a move (0 and 2) and neither win
    counter is 2, yet commitments, moves and deadlines are not reset. *)
Example revealMove_pending_not_reset :
  let g' := set_lastMoveBlockHeight 13 revealed_game in
  move (player1Move g') = 0 /\ move (player2Move g') = 2
  /\ player1Wins g' = 0 /\ player2Wins g' = 0
  /\ player1Commitment g' = sample_hash [0; 11]
  /\ player2Move g' <> unset_move
  /\ commitmentDeadline g' = 60 /\ commitmentDeadline g' <> 13 + MOVE_TIME_LIMIT.
Proof. vm_compute. repeat split; discriminate. Qed.

(** ** Settlement *)

(** C6, on the code.  [endGame] takes the even split for every game: the
    test [if (game.gameWinner.equals(PublicKey.empty()))] is on an o1js
    [Bool] object, which JavaScript takes as true, so the 2:0 branch is
    never run.  It calls [acquireFunds] with player1, player2 and the
    weights 1, 1, 0, sets the active-match pointer of both players to 0 and
    calls [_onLobbyEnd] with the flag true; [games] and [gameFund] are not
    written. *)
Theorem endGame_always_splits (game : Game) (st : State) :
  exists st',
    endGame game st = Ok tt st'
    /\ baseCalls st' =
       baseCalls st ++ [acquireFunds (id game) (player1 game) (player2 game) 1 1 0;
                        _onLobbyEnd (id game) (Bool_ true)]
    /\ activeGameId st' !! player1 game = Some 0
    /\ activeGameId st' !! player2 game = Some 0
    /\ games st' = games st
    /\ gameFund st' = gameFund st.
Proof.
  exists (split_settled game st). split; [apply endGame_run|].
  unfold split_settled; cbn. repeat split.
  - destruct (decide (player2 game = player1 game)) as [E | Hne].
    + rewrite E. apply lookup_insert_eq.
    + rewrite lookup_insert_ne by exact Hne. apply lookup_insert_eq.
  - apply lookup_insert_eq.
Qed.

(** With alice as the decided winner the claim asks for
    [acquireFunds(7, alice, bob, 2, 0, 0)]; the code records the split. *)
Example endGame_won_game :
  exists st',
    endGame won_game won_state = Ok tt st'
    /\ gameWinner won_game = alice
    /\ baseCalls st' = [acquireFunds 7 alice bob 1 1 0; _onLobbyEnd 7 (Bool_ true)]
    /\ baseCalls st' <> [acquireFunds 7 alice bob 2 0 0; _onLobbyEnd 7 (Bool_ true)].
Proof.
  eexists. split; [apply endGame_run|].
  split; [reflexivity|]. split; [reflexivity|]. discriminate.
Qed.

(** ** Initialisation *)

Lemma UInt64_checked_ok (n : Z) (st : State) :
  0 <= n <= UInt64_MAX -> UInt64_checked n st = Ok n st.
Proof.
  intros [Hlo Hhi]. unfold UInt64_checked.
  rewrite (proj2 (Z.leb_le _ _) Hlo), (proj2 (Z.leb_le _ _) Hhi). reflexivity.
Qed.

Lemma ProtoUInt64_mul_ok (a b : Z) (st : State) :
  0 <= a * b <= UInt64_MAX -> ProtoUInt64_mul a b st = Ok (a * b) st.
Proof.
  intros [Hlo Hhi]. unfold ProtoUInt64_mul.
  rewrite (proj2 (Z.leb_le _ _) Hlo), (proj2 (Z.leb_le _ _) Hhi). reflexivity.
Qed.

(** C2, on the code.  Whatever [shouldInit] is, when the lobby bookkeeping
    returns a match id and the deadlines and the doubled fee fit in a
    UInt64, [initGame] returns that id with the fresh Game stored under it
    and fee * 2 written as its fund: the test
    [if (shouldInit.equals(Bool(true)))] is on an o1js [Bool] object, which
    JavaScript takes as true, so the skipping branch is never run. *)
Theorem initGame_ignores_shouldInit (super_initGame : Lobby -> Bool -> M Z)
        (env : Env) (lobby : Lobby) (shouldInit : Bool)
        (st st1 : State) (gameId : Z) :
  super_initGame lobby shouldInit st = Ok gameId st1 ->
  0 <= height env ->
  height env + 2 * MOVE_TIME_LIMIT <= UInt64_MAX ->
  0 <= participationFee lobby ->
  participationFee lobby * 2 <= UInt64_MAX ->
  exists st2,
    initGame super_initGame env lobby shouldInit st = Ok gameId st2
    /\ games st2 = <[gameId := fresh_game gameId lobby (height env)]> (games st1)
    /\ gameFund st2 = <[gameId := participationFee lobby * 2]> (gameFund st1)
    /\ games st2 !! gameId = Some (fresh_game gameId lobby (height env))
    /\ gameFund st2 !! gameId = Some (participationFee lobby * 2).
Proof.
  intros Hsuper Hh Hdl Hfee Hfund.
  unfold initGame, bind, UInt64_add, UInt64_mul, ToBoolean. rewrite Hsuper.
  unfold MOVE_TIME_LIMIT in *.
  rewrite UInt64_checked_ok by (unfold UInt64_MAX in *; lia).
  change (50 * 2) with 100.
  rewrite (UInt64_checked_ok 100) by (unfold UInt64_MAX; lia).
  rewrite UInt64_checked_ok by (unfold UInt64_MAX in *; lia).
  unfold games_set. cbn iota beta.
  rewrite ProtoUInt64_mul_ok by lia.
  unfold gameFund_set, ret, put_game. cbn.
  eexists. split; [reflexivity|]. cbn.
  change (mkGame gameId (fst (players lobby)) (snd (players lobby))
            (mkField 0) (mkField 0)
            (mkRPSLSMove (mkField (-1)) (mkField 0))
            (mkRPSLSMove (mkField (-1)) (mkField 0))
            (mkField 0) (mkField 0) (height env + 50) (height env + 100)
            PublicKey_empty (height env))
    with (fresh_game gameId lobby (height env)).
  repeat split; apply lookup_insert_eq.
Qed.

Lemma initGame_ignores_shouldInit_witness :
  exists st2,
    initGame sample_super (mkEnv carol 10) sample_lobby (Bool_ false) empty_state
    = Ok 7 st2
    /\ games st2 = <[7 := sample_game]> (games empty_state)
    /\ gameFund st2 = <[7 := 10]> (gameFund empty_state)
    /\ games st2 !! 7 = Some sample_game
    /\ gameFund st2 !! 7 = Some 10.
Proof.
  apply (initGame_ignores_shouldInit sample_super (mkEnv carol 10) sample_lobby
           (Bool_ false) empty_state empty_state 7).
  - reflexivity.
  - vm_compute. discriminate.
  - vm_compute. discriminate.
  - vm_compute. discriminate.
  - vm_compute. discriminate.
Defined.

(** ** Deadlines of the next round *)



(** * Further properties of the module *)

(** ** Outcomes of [commitMove] and [revealMove] *)

Ltac split_tests :=
  repeat match goal with
         | |- context [toBoolean (PublicKey_equals ?a ?b)] =>
             let E := fresh "E" in
             destruct (toBoolean (PublicKey_equals a b)) eqn:E;
             [apply PublicKey_equals_spec in E
             | assert (a <> b)
                 by (let Heq := fresh in
                     intros Heq; apply PublicKey_equals_spec in Heq; congruence);
               clear E]
         | |- context [?a <=? ?b] => destruct (Z.leb_spec a b)
         | |- context [?a <? ?b] => destruct (Z.ltb_spec a b)
         | |- context [?a =? ?b] => destruct (Z.eqb_spec a b)
         end; cbn [negb andb].

Ltac settle_outcomes :=
  repeat split; intros;
  repeat match goal with
         | H : _ /\ _ |- _ => destruct H
         | H : exists _, _ |- _ => destruct H
         end;
  try discriminate; try congruence; try lia; eauto.

(** X1.  What decides a [commitMove] on a stored game, in the order of
    the checks: it fails with 'Game already finished' exactly when the
    winner is set; otherwise with 'You are not a player in this game'
    exactly when the sender is not player1; otherwise with 'Commitment
    period has ended' exactly when the block height is past the commitment
    deadline; and it succeeds in the one remaining case. *)
Theorem commitMove_outcomes (env : Env) (gameId : Z) (c : Field)
        (st : State) (g : Game) :
  games st !! gameId = Some g ->
  (commitMove env gameId c st = Failed (AssertFailed "Game already finished")
   <-> gameWinner g <> PublicKey_empty)
  /\ (commitMove env gameId c st
      = Failed (AssertFailed "You are not a player in this game")
      <-> gameWinner g = PublicKey_empty /\ sender env <> player1 g)
  /\ (commitMove env gameId c st = Failed (AssertFailed "Commitment period has ended")
      <-> gameWinner g = PublicKey_empty /\ sender env = player1 g
          /\ commitmentDeadline g < height env)
  /\ ((exists g' st', commitMove env gameId c st = Ok g' st')
      <-> gameWinner g = PublicKey_empty /\ sender env = player1 g
          /\ height env <= commitmentDeadline g).
Proof.
  intros Hg. rewrite commitMove_run. cbv zeta. rewrite (stored_Some _ _ _ Hg).
  split_tests; settle_outcomes.
Qed.

Lemma commitMove_outcomes_witness :
  (commitMove (mkEnv alice 61) 7 5 sample_state
   = Failed (AssertFailed "Game already finished")
   <-> gameWinner sample_game <> PublicKey_empty)
  /\ (commitMove (mkEnv alice 61) 7 5 sample_state
      = Failed (AssertFailed "You are not a player in this game")
      <-> gameWinner sample_game = PublicKey_empty /\ alice <> player1 sample_game)
  /\ (commitMove (mkEnv alice 61) 7 5 sample_state
      = Failed (AssertFailed "Commitment period has ended")
      <-> gameWinner sample_game = PublicKey_empty /\ alice = player1 sample_game
          /\ commitmentDeadline sample_game < 61)
  /\ ((exists g' st', commitMove (mkEnv alice 61) 7 5 sample_state = Ok g' st')
      <-> gameWinner sample_game = PublicKey_empty /\ alice = player1 sample_game
          /\ 61 <= commitmentDeadline sample_game).
Proof.
  apply (commitMove_outcomes (mkEnv alice 61) 7 5 sample_state sample_game).
  vm_compute. reflexivity.
Defined.

(** X2.  What decides a [revealMove] on a stored game, in the order of the
    checks: 'Game already finished' when the winner is set; else 'You are
    not a player in this game' when the sender is not player1; else 'Reveal
    period has ended' when the block height is past the reveal deadline;
    else 'Revealed move does not match commitment' when the hash of the
    pair is not player1's stored commitment; and success in the one
    remaining case. *)
Theorem revealMove_outcomes (Poseidon_hash : list Field -> Field)
        (env : Env) (gameId : Z) (mv : RPSLSMove) (st : State) (g : Game) :
  games st !! gameId = Some g ->
  (revealMove Poseidon_hash env gameId mv st
   = Failed (AssertFailed "Game already finished")
   <-> gameWinner g <> PublicKey_empty)
  /\ (revealMove Poseidon_hash env gameId mv st
      = Failed (AssertFailed "You are not a player in this game")
      <-> gameWinner g = PublicKey_empty /\ sender env <> player1 g)
  /\ (revealMove Poseidon_hash env gameId mv st
      = Failed (AssertFailed "Reveal period has ended")
      <-> gameWinner g = PublicKey_empty /\ sender env = player1 g
          /\ revealDeadline g < height env)
  /\ (revealMove Poseidon_hash env gameId mv st
      = Failed (AssertFailed "Revealed move does not match commitment")
      <-> gameWinner g = PublicKey_empty /\ sender env = player1 g
          /\ height env <= revealDeadline g
          /\ Poseidon_hash [move mv; salt mv] <> player1Commitment g)
  /\ ((exists r st', revealMove Poseidon_hash env gameId mv st = Ok r st')
      <-> gameWinner g = PublicKey_empty /\ sender env = player1 g
          /\ height env <= revealDeadline g
          /\ Poseidon_hash [move mv; salt mv] = player1Commitment g).
Proof.
  intros Hg. rewrite revealMove_run. cbv zeta. rewrite (stored_Some _ _ _ Hg).
  split_tests; settle_outcomes.
Qed.

Lemma revealMove_outcomes_witness :
  (revealMove sample_hash (mkEnv alice 13) 7 (mkRPSLSMove 1 11) pending_state
   = Failed (AssertFailed "Game already finished")
   <-> gameWinner pending_game <> PublicKey_empty)
  /\ (revealMove sample_hash (mkEnv alice 13) 7 (mkRPSLSMove 1 11) pending_state
      = Failed (AssertFailed "You are not a player in this game")
      <-> gameWinner pending_game = PublicKey_empty /\ alice <> player1 pending_game)
  /\ (revealMove sample_hash (mkEnv alice 13) 7 (mkRPSLSMove 1 11) pending_state
      = Failed (AssertFailed "Reveal period has ended")
      <-> gameWinner pending_game = PublicKey_empty /\ alice = player1 pending_game
          /\ revealDeadline pending_game < 13)
  /\ (revealMove sample_hash (mkEnv alice 13) 7 (mkRPSLSMove 1 11) pending_state
      = Failed (AssertFailed "Revealed move does not match commitment")
      <-> gameWinner pending_game = PublicKey_empty /\ alice = player1 pending_game
          /\ 13 <= revealDeadline pending_game
          /\ sample_hash [1; 11] <> player1Commitment pending_game)
  /\ ((exists r st',
          revealMove sample_hash (mkEnv alice 13) 7 (mkRPSLSMove 1 11) pending_state
          = Ok r st')
      <-> gameWinner pending_game = PublicKey_empty /\ alice = player1 pending_game
          /\ 13 <= revealDeadline pending_game
          /\ sample_hash [1; 11] = player1Commitment pending_game).
Proof.
  apply (revealMove_outcomes sample_hash (mkEnv alice 13) 7 (mkRPSLSMove 1 11)
           pending_state pending_game).
  vm_compute. reflexivity.
Defined.

(** ** Matches do not interfere *)

Ltac split_ifs :=
  repeat match goal with
         | |- context [if negb ?b then _ else _] => destruct b; cbn [negb]
         end.

Lemma apply_tx_gameFund (Poseidon_hash : list Field -> Field) (t : Tx) (st : State) :
  gameFund (apply_tx Poseidon_hash t st) = gameFund st.
Proof.
  destruct t as [env gid c | env gid mv | env gid]; cbn [apply_tx];
    unfold state_after;
    [rewrite commitMove_run | rewrite revealMove_run | rewrite claimTimeoutVictory_run];
    cbv zeta; split_ifs; reflexivity.
Qed.

Lemma apply_tx_other_match (Poseidon_hash : list Field -> Field)
      (t : Tx) (gameId : Z) (st : State) :
  tx_gameId t <> gameId ->
  games (apply_tx Poseidon_hash t st) !! gameId = games st !! gameId.
Proof.
  destruct t as [env gid c | env gid mv | env gid]; cbn [apply_tx tx_gameId];
    intros Hne.
  - apply commitMove_frame. exact Hne.
  - apply revealMove_frame. exact Hne.
  - apply claimTimeoutVictory_frame. exact Hne.
Qed.

(** X3.  Player transactions never write the [gameFund] map, and a run of
    transactions none of which is addressed to match [gameId] leaves the
    record stored under [gameId] (or its absence) as it was. *)
Theorem run_is_local (Poseidon_hash : list Field -> Field)
        (txs : list Tx) (gameId : Z) (st : State) :
  Forall (fun t => tx_gameId t <> gameId) txs ->
  games (run Poseidon_hash txs st) !! gameId = games st !! gameId
  /\ gameFund (run Poseidon_hash txs st) = gameFund st.
Proof.
  intros Hall. revert st.
  induction Hall as [| t txs Ht _ IH]; intros st.
  - split; reflexivity.
  - change (run Poseidon_hash (t :: txs) st)
      with (run Poseidon_hash txs (apply_tx Poseidon_hash t st)).
    destruct (IH (apply_tx Poseidon_hash t st)) as [Hg Hf]. split.
    + rewrite Hg. apply apply_tx_other_match. exact Ht.
    + rewrite Hf. apply apply_tx_gameFund.
Qed.

Lemma run_is_local_witness :
  games (run sample_hash
           [TxCommit (mkEnv alice 12) 8 5; TxClaim (mkEnv carol 70) 9] sample_state) !! 7
  = games sample_state !! 7
  /\ gameFund (run sample_hash
                 [TxCommit (mkEnv alice 12) 8 5; TxClaim (mkEnv carol 70) 9]
                 sample_state)
     = gameFund sample_state.
Proof.
  apply (run_is_local sample_hash
           [TxCommit (mkEnv alice 12) 8 5; TxClaim (mkEnv carol 70) 9] 7 sample_state).
  repeat constructor; cbn; lia.
Defined.

(** ** What no transaction changes *)

Lemma same_match_refl (g : Game) : same_match g g.
Proof. unfold same_match. repeat split. Qed.

Lemma same_match_trans (g1 g2 g3 : Game) :
  same_match g1 g2 -> same_match g2 g3 -> same_match g1 g3.
Proof.
  unfold same_match. intros H12 H23.
  destruct H12 as (?&?&?&?&?&?&?&?&?), H23 as (?&?&?&?&?&?&?&?&?).
  repeat split; congruence.
Qed.

Lemma apply_tx_same_match (Poseidon_hash : list Field -> Field)
      (t : Tx) (gameId : Z) (st : State) (g : Game) :
  games st !! gameId = Some g ->
  exists g', games (apply_tx Poseidon_hash t st) !! gameId = Some g'
             /\ same_match g g'.
Proof.
  intros Hg. destruct (decide (tx_gameId t = gameId)) as [Heq | Hne].
  - destruct t as [env gid c | env gid mv | env gid];
      cbn [apply_tx tx_gameId] in *; subst gid; unfold state_after;
      [rewrite commitMove_run | rewrite revealMove_run
       | rewrite claimTimeoutVictory_run];
      cbv zeta; rewrite (stored_Some _ _ _ Hg); split_ifs;
      try (exists g; split; [exact Hg | apply same_match_refl]);
      (eexists; split; [apply games_put_game_eq | unfold same_match; repeat split]).
  - exists g. split; [|apply same_match_refl].
    rewrite apply_tx_other_match by exact Hne. exact Hg.
Qed.

(** X4.  Whatever transactions are run, by any senders at any block
    heights, a stored match stays stored and its record keeps its id, both
    players, player2's commitment and move slot, both win counters and
    both deadlines: only player1's commitment and move, the winner and the
    stamp of the last move can differ. *)
Theorem run_keeps_match (Poseidon_hash : list Field -> Field)
        (txs : list Tx) (gameId : Z) (st : State) (g : Game) :
  games st !! gameId = Some g ->
  exists g', games (run Poseidon_hash txs st) !! gameId = Some g'
             /\ same_match g g'.
Proof.
  revert st g. induction txs as [| t txs IH]; intros st g Hg.
  - exists g. split; [exact Hg | apply same_match_refl].
  - change (run Poseidon_hash (t :: txs) st)
      with (run Poseidon_hash txs (apply_tx Poseidon_hash t st)).
    destruct (apply_tx_same_match Poseidon_hash t gameId st g Hg) as (g1 & Hg1 & H1).
    destruct (IH _ _ Hg1) as (g2 & Hg2 & H2).
    exists g2. split; [exact Hg2 | exact (same_match_trans _ _ _ H1 H2)].
Qed.

Lemma run_keeps_match_witness :
  exists g',
    games (run sample_hash
             [TxCommit (mkEnv alice 12) 7 (sample_hash [0; 11]);
              TxCommit (mkEnv bob 12) 7 (sample_hash [2; 5]);
              TxReveal (mkEnv alice 13) 7 (mkRPSLSMove 0 11);
              TxClaim (mkEnv bob 70) 7]
             sample_state) !! 7 = Some g'
    /\ same_match sample_game g'.
Proof.
  apply (run_keeps_match sample_hash _ 7 sample_state sample_game).
  vm_compute. reflexivity.
Defined.

(** ** Reading the state *)

(** X5.  [getGameState] changes nothing, and after a successful
    [commitMove], [revealMove] or [claimTimeoutVictory] it returns the very
    record that the method returned. *)
Theorem getGameState_reads_last_write (Poseidon_hash : list Field -> Field)
        (env : Env) (gameId : Z) (st st' : State) (g' : Game) :
  (exists c, commitMove env gameId c st = Ok g' st')
  \/ (exists mv r, revealMove Poseidon_hash env gameId mv st = Ok (g', r) st')
  \/ claimTimeoutVictory env gameId st = Ok g' st' ->
  getGameState gameId st' = Ok g' st'.
Proof.
  unfold getGameState, runtimeMethod, games_get.
  intros [(c & Hc) | [(mv & r & Hr) | Hcl]].
  - rewrite commitMove_run in Hc. cbv zeta in Hc.
    revert Hc. split_ifs; try discriminate. intros [= <- <-].
    rewrite (stored_Some _ _ _ (games_put_game_eq _ _ _)). reflexivity.
  - rewrite revealMove_run in Hr. cbv zeta in Hr.
    revert Hr. split_ifs; try discriminate. intros [= <- <- <-].
    rewrite (stored_Some _ _ _ (games_put_game_eq _ _ _)). reflexivity.
  - rewrite claimTimeoutVictory_run in Hcl. cbv zeta in Hcl.
    revert Hcl. split_ifs; try discriminate. intros [= <- <-].
    rewrite (stored_Some _ _ _ (games_put_game_eq _ _ _)). reflexivity.
Qed.

Lemma getGameState_reads_last_write_witness :
  getGameState 7
    (put_game 7 (set_lastMoveBlockHeight 12 (set_player1Commitment 5 sample_game))
       sample_state)
  = Ok (set_lastMoveBlockHeight 12 (set_player1Commitment 5 sample_game))
       (put_game 7 (set_lastMoveBlockHeight 12 (set_player1Commitment 5 sample_game))
          sample_state).
Proof.
  apply (getGameState_reads_last_write sample_hash (mkEnv alice 12) 7 sample_state).
  left. exists 5. vm_compute. reflexivity.
Defined.

(** ** The timeout window after a move *)

(** X6.  A successful [commitMove] at block height [h] restarts the
    timeout window: a [claimTimeoutVictory] sent afterwards, by anyone,
    fails with 'Opponent has not timed out yet' exactly up to height
    [h + 50]; later it succeeds, and the winner written is the committer
    itself when the committer sends the claim, player2 otherwise. *)
Theorem claim_after_commit (env1 env2 : Env) (gameId : Z) (c : Field)
        (st st1 : State) (g g1 : Game) :
  games st !! gameId = Some g ->
  commitMove env1 gameId c st = Ok g1 st1 ->
  0 <= height env1 ->
  height env1 + MOVE_TIME_LIMIT <= UInt64_MAX ->
  (claimTimeoutVictory env2 gameId st1
   = Failed (AssertFailed "Opponent has not timed out yet")
   <-> height env2 <= height env1 + MOVE_TIME_LIMIT)
  /\ (height env1 + MOVE_TIME_LIMIT < height env2 ->
      exists g2 st2,
        claimTimeoutVictory env2 gameId st1 = Ok g2 st2
        /\ games st2 !! gameId = Some g2
        /\ gameWinner g2 =
           if decide (sender env2 = sender env1) then sender env1 else player2 g).
Proof.
  intros Hg Hc Hh Hfit.
  destruct (commitMove_Ok_inv _ _ _ _ _ _ _ Hg Hc) as (Hw & Hs & _ & -> & ->).
  rewrite claimTimeoutVictory_run. cbv zeta.
  rewrite (stored_Some _ _ _ (games_put_game_eq _ _ _)).
  cbn [gameWinner lastMoveBlockHeight player1 player2 set_lastMoveBlockHeight
       set_player1Commitment].
  rewrite (in_progress_test g Hw). cbn [negb].
  assert (Hrange : (0 <=? height env1 + MOVE_TIME_LIMIT)
                   && (height env1 + MOVE_TIME_LIMIT <=? UInt64_MAX) = true).
  { apply andb_true_iff. split; apply Z.leb_le; unfold MOVE_TIME_LIMIT in *; lia. }
  rewrite Hrange. cbn [negb].
  destruct (Z.ltb_spec (height env1 + MOVE_TIME_LIMIT) (height env2)) as [Hlt | Hle];
    cbn [negb].
  - split; [split; [discriminate | lia]|].
    intros _. eexists _, _. split; [reflexivity|].
    split; [apply games_put_game_eq|]. cbn [gameWinner set_gameWinner].
    rewrite <- Hs.
    destruct (decide (sender env2 = sender env1)) as [E | Hne].
    + rewrite E, PublicKey_equals_refl. reflexivity.
    + rewrite (PublicKey_equals_neq _ _ Hne). reflexivity.
  - split; [split; [intros _; exact Hle | reflexivity]|]. intros Hc'. lia.
Qed.

Lemma claim_after_commit_witness :
  (claimTimeoutVictory (mkEnv alice 63) 7
     (state_after (commitMove (mkEnv alice 12) 7 5) sample_state)
   = Failed (AssertFailed "Opponent has not timed out yet")
   <-> 63 <= 12 + MOVE_TIME_LIMIT)
  /\ (12 + MOVE_TIME_LIMIT < 63 ->
      exists g2 st2,
        claimTimeoutVictory (mkEnv alice 63) 7
          (state_after (commitMove (mkEnv alice 12) 7 5) sample_state) = Ok g2 st2
        /\ games st2 !! 7 = Some g2
        /\ gameWinner g2 = if decide (alice = alice) then alice else player2 sample_game).
Proof.
  apply (claim_after_commit (mkEnv alice 12) (mkEnv alice 63) 7 5 sample_state _
           sample_game
           (set_lastMoveBlockHeight 12 (set_player1Commitment 5 sample_game))).
  - vm_compute. reflexivity.
  - vm_compute. reflexivity.
  - vm_compute. discriminate.
  - vm_compute. discriminate.
Defined.

(** X7.  On a stored game whose two players have non-empty keys, a
    successful [claimTimeoutVictory] concludes the match for good: in the
    state it leaves, every further [claimTimeoutVictory], [commitMove] and
    [revealMove] on the match fails with 'Game already finished'. *)
Theorem claim_is_final (Poseidon_hash : list Field -> Field)
        (env : Env) (gameId : Z) (st st1 : State) (g g1 : Game) :
  games st !! gameId = Some g ->
  player1 g <> PublicKey_empty ->
  player2 g <> PublicKey_empty ->
  claimTimeoutVictory env gameId st = Ok g1 st1 ->
  forall env',
    claimTimeoutVictory env' gameId st1
    = Failed (AssertFailed "Game already finished")
    /\ (forall c, commitMove env' gameId c st1
                  = Failed (AssertFailed "Game already finished"))
    /\ (forall mv, revealMove Poseidon_hash env' gameId mv st1
                   = Failed (AssertFailed "Game already finished")).
Proof.
  intros Hg Hp1 Hp2 Hcl env'.
  rewrite claimTimeoutVictory_run in Hcl. cbv zeta in Hcl.
  rewrite (stored_Some _ _ _ Hg) in Hcl.
  revert Hcl.
  destruct (toBoolean (PublicKey_equals (gameWinner g) PublicKey_empty));
    cbn [negb]; [|destruct (negb _); discriminate].
  destruct (Z.leb_spec 0 (lastMoveBlockHeight g + MOVE_TIME_LIMIT)) as [Hlo |];
    destruct (Z.leb_spec (lastMoveBlockHeight g + MOVE_TIME_LIMIT) UInt64_MAX)
      as [Hhi |];
    cbn [andb negb]; try discriminate.
  destruct (negb _); [discriminate|]. intros [= <- <-].
  set (g1 := set_gameWinner _ g).
  assert (Hg1 : games (put_game gameId g1 (split_settled g1 st)) !! gameId = Some g1)
    by apply games_put_game_eq.
  assert (Hw : gameWinner g1 <> PublicKey_empty).
  { subst g1. cbn [gameWinner set_gameWinner].
    match goal with |- (if ?b then _ else _) <> _ => destruct b end; assumption. }
  assert (Hfit : 0 <= lastMoveBlockHeight g1 + MOVE_TIME_LIMIT <= UInt64_MAX)
    by (split; [exact Hlo | exact Hhi]).
  split; [exact (claimTimeoutVictory_concluded _ _ _ _ Hg1 Hw Hfit)|].
  split; intros ?.
  - exact (commitMove_concluded _ _ _ _ _ Hg1 Hw).
  - exact (revealMove_concluded _ _ _ _ _ _ Hg1 Hw).
Qed.

Lemma claim_is_final_witness :
  claimTimeoutVictory (mkEnv alice 80) 7
    (state_after (claimTimeoutVictory (mkEnv bob 61) 7) sample_state)
  = Failed (AssertFailed "Game already finished")
  /\ (forall c, commitMove (mkEnv alice 80) 7 c
                  (state_after (claimTimeoutVictory (mkEnv bob 61) 7) sample_state)
                = Failed (AssertFailed "Game already finished"))
  /\ (forall mv, revealMove sample_hash (mkEnv alice 80) 7 mv
                   (state_after (claimTimeoutVictory (mkEnv bob 61) 7) sample_state)
                 = Failed (AssertFailed "Game already finished")).
Proof.
  apply (claim_is_final sample_hash (mkEnv bob 61) 7 sample_state _ sample_game
           (set_gameWinner bob sample_game)).
  - vm_compute. reflexivity.
  - discriminate.
  - discriminate.
  - vm_compute. reflexivity.
Defined.

(** ** The winner resolver off and on the five moves *)

(** X8.  [determineWinner] does not check that its moves are among 0..4.
    As soon as one of the two is not, player1 never wins: equal moves give
    the empty key and different moves give player2, whichever side played
    the number that is no move. *)
Theorem determineWinner_out_of_range (move1 move2 : Z) (p1 p2 : PublicKey) :
  ~ (0 <= move1 <= 4) \/ ~ (0 <= move2 <= 4) ->
  determineWinner move1 move2 p1 p2
  = if move1 =? move2 then PublicKey_empty else p2.
Proof.
  intros Hout.
  unfold determineWinner, Provable_if, Bool_or, Bool_and, Field_equals.
  cbn [toBoolean].
  change (mkField 0) with 0. change (mkField 1) with 1. change (mkField 2) with 2.
  change (mkField 3) with 3. change (mkField 4) with 4.
  repeat match goal with
         | |- context [?a =? ?b] => destruct (Z.eqb_spec a b); try subst; try lia
         end; reflexivity.
Qed.

Lemma determineWinner_out_of_range_witness :
  determineWinner 7 2 alice bob = if 7 =? 2 then PublicKey_empty else bob.
Proof.
  apply (determineWinner_out_of_range 7 2 alice bob). left. lia.
Defined.

(** X9.  On the five moves the resolver does not favour a seat: swapping
    the two moves together with the two players gives the same winner. *)
Theorem determineWinner_swap (move1 move2 : Z) (p1 p2 : PublicKey) :
  0 <= move1 <= 4 -> 0 <= move2 <= 4 ->
  determineWinner move1 move2 p1 p2 = determineWinner move2 move1 p2 p1.
Proof.
  intros H1 H2. each_move move1 H1; each_move move2 H2; reflexivity.
Qed.

Lemma determineWinner_swap_witness :
  determineWinner 3 1 alice bob = determineWinner 1 3 bob alice.
Proof.
  apply (determineWinner_swap 3 1 alice bob); lia.
Defined.

(** X10.  The game is balanced: for two different non-empty players, each
    of the five moves played by player1 wins against exactly two of the
    five moves, loses against exactly two, and ties against itself only. *)
Theorem determineWinner_balanced (m : Z) (p1 p2 : PublicKey) :
  0 <= m <= 4 ->
  p1 <> PublicKey_empty -> p2 <> PublicKey_empty -> p1 <> p2 ->
  length (outcomes_for m p1 p2 p1) = 2%nat
  /\ length (outcomes_for m p1 p2 p2) = 2%nat
  /\ outcomes_for m p1 p2 PublicKey_empty = [m].
Proof.
  intros Hm Hp1 Hp2 Hne.
  unfold outcomes_for, all_moves.
  each_move m Hm;
    rewrite !filter_cons, !filter_nil;
    rewrite !determineWinner_eval by lia;
    cbn [Z.eqb Pos.eqb];
    repeat match goal with
           | |- context [beats ?a ?b] =>
               let v := eval vm_compute in (beats a b) in
               change (beats a b) with v
           end;
    cbn iota;
    repeat case_decide; try congruence; repeat split; reflexivity.
Qed.

Lemma determineWinner_balanced_witness :
  length (outcomes_for 3 alice bob alice) = 2%nat
  /\ length (outcomes_for 3 alice bob bob) = 2%nat
  /\ outcomes_for 3 alice bob PublicKey_empty = [3].
Proof.
  apply (determineWinner_balanced 3 alice bob); [lia | discriminate ..].
Defined.

(** ** Opening a match *)

Lemma UInt64_checked_inv (n : Z) (st st' : State) (v : Z) :
  UInt64_checked n st = Ok v st' -> v = n /\ st' = st /\ 0 <= n <= UInt64_MAX.
Proof.
  unfold UInt64_checked.
  destruct (Z.leb_spec 0 n), (Z.leb_spec n UInt64_MAX); cbn [andb];
    try discriminate.
  intros [= <- <-]. auto.
Qed.

Lemma UInt64_checked_fail (n : Z) (st : State) :
  UInt64_MAX < n -> UInt64_checked n st = Failed RangeCheckFailed.
Proof.
  intros Hn. unfold UInt64_checked.
  destruct (Z.leb_spec n UInt64_MAX); [lia|].
  rewrite andb_false_r. reflexivity.
Qed.

Lemma UInt64_checked_cases (n : Z) (st : State) :
  UInt64_checked n st = Ok n st \/ UInt64_checked n st = Failed RangeCheckFailed.
Proof.
  unfold UInt64_checked.
  destruct ((0 <=? n) && (n <=? UInt64_MAX)); [left | right]; reflexivity.
Qed.

(** What a successful [initGame] has done. *)
Lemma initGame_Ok_inv (super_initGame : Lobby -> Bool -> M Z)
      (env : Env) (lobby : Lobby) (shouldInit : Bool)
      (st st' : State) (gameId : Z) :
  initGame super_initGame env lobby shouldInit st = Ok gameId st' ->
  exists st1,
    super_initGame lobby shouldInit st = Ok gameId st1
    /\ games st' = <[gameId := fresh_game gameId lobby (height env)]> (games st1)
    /\ gameFund st' = <[gameId := participationFee lobby * 2]> (gameFund st1)
    /\ activeGameId st' = activeGameId st1
    /\ baseCalls st' = baseCalls st1.
Proof.
  unfold initGame. unfold bind at 1.
  destruct (super_initGame lobby shouldInit st) as [gid st1 | msg gid st1 | f];
    [| match goal with
       | |- match ?x with _ => _ end = _ -> _ => destruct x; discriminate
       end
     | discriminate].
  unfold bind, UInt64_add, UInt64_mul, ToBoolean.
  destruct (UInt64_checked_cases (height env + MOVE_TIME_LIMIT) st1) as [E | E];
    rewrite E; [|discriminate].
  destruct (UInt64_checked_cases (MOVE_TIME_LIMIT * 2) st1) as [E2 | E2];
    rewrite E2; [|discriminate].
  destruct (UInt64_checked_cases (height env + MOVE_TIME_LIMIT * 2) st1) as [E3 | E3];
    rewrite E3; [|discriminate].
  unfold games_set, ProtoUInt64_mul. cbn iota beta.
  destruct ((0 <=? participationFee lobby * 2)
            && (participationFee lobby * 2 <=? UInt64_MAX)); [|discriminate].
  unfold gameFund_set, ret. intros [= <- <-].
  exists st1. repeat split.
Qed.

(** X11.  [initGame] computes both deadlines with checked additions before
    it looks at [shouldInit]: when the block height plus 100 exceeds the
    largest UInt64, the call fails on the range check, for [shouldInit]
    true and false alike, although the lobby bookkeeping succeeded. *)
Theorem initGame_out_of_range (super_initGame : Lobby -> Bool -> M Z)
        (env : Env) (lobby : Lobby) (shouldInit : Bool)
        (st st1 : State) (gameId : Z) :
  super_initGame lobby shouldInit st = Ok gameId st1 ->
  0 <= height env ->
  UInt64_MAX < height env + 2 * MOVE_TIME_LIMIT ->
  initGame super_initGame env lobby shouldInit st = Failed RangeCheckFailed.
Proof.
  intros Hsuper Hh Hbig.
  unfold initGame, bind, UInt64_add, UInt64_mul. rewrite Hsuper.
  unfold MOVE_TIME_LIMIT in *.
  destruct (Z.le_gt_cases (height env + 50) UInt64_MAX) as [Hfit | Hover].
  - rewrite UInt64_checked_ok by lia.
    change (50 * 2) with 100.
    rewrite (UInt64_checked_ok 100) by (unfold UInt64_MAX; lia).
    rewrite UInt64_checked_fail by lia. reflexivity.
  - rewrite UInt64_checked_fail by lia. reflexivity.
Qed.

Lemma initGame_out_of_range_witness :
  initGame sample_super (mkEnv carol (UInt64_MAX - 60)) sample_lobby (Bool_ false)
    empty_state
  = Failed RangeCheckFailed.
Proof.
  apply (initGame_out_of_range sample_super (mkEnv carol (UInt64_MAX - 60))
           sample_lobby (Bool_ false) empty_state empty_state 7).
  - reflexivity.
  - vm_compute. discriminate.
  - vm_compute. reflexivity.
Defined.

(** X12.  From opening to reveal: in the state a successful [initGame]
    leaves, the first player of the lobby can commit the hash of (m, s) up
    to block height [h + 50] and reveal (m, s) up to [h + 100], where [h]
    is the height at which the match was opened; both calls succeed, no
    round winner is returned, and the stored record is the fresh one with
    that commitment and that move in player1's slots and the stamp of the
    reveal. *)
Theorem open_commit_reveal (Poseidon_hash : list Field -> Field)
        (super_initGame : Lobby -> Bool -> M Z)
        (env0 env1 env2 : Env) (lobby : Lobby) (shouldInit : Bool)
        (st st0 : State) (gameId : Z) (m s : Field) :
  initGame super_initGame env0 lobby shouldInit st = Ok gameId st0 ->
  sender env1 = fst (players lobby) ->
  sender env2 = fst (players lobby) ->
  height env1 <= height env0 + MOVE_TIME_LIMIT ->
  height env2 <= height env0 + 2 * MOVE_TIME_LIMIT ->
  exists g1 st1 g2 st2,
    commitMove env1 gameId (Poseidon_hash [m; s]) st0 = Ok g1 st1
    /\ revealMove Poseidon_hash env2 gameId (mkRPSLSMove m s) st1 = Ok (g2, None) st2
    /\ games st2 !! gameId = Some g2
    /\ g2 = mkGame gameId (fst (players lobby)) (snd (players lobby))
                   (Poseidon_hash [m; s]) 0 (mkRPSLSMove m s) unset_move 0 0
                   (height env0 + MOVE_TIME_LIMIT) (height env0 + 2 * MOVE_TIME_LIMIT)
                   PublicKey_empty (height env2).
Proof.
  intros Hinit Hs1 Hs2 Hh1 Hh2.
  destruct (initGame_Ok_inv _ _ _ _ _ _ _ Hinit) as (st' & _ & Hgames & _).
  assert (Hg0 : games st0 !! gameId = Some (fresh_game gameId lobby (height env0)))
    by (rewrite Hgames; apply lookup_insert_eq).
  set (g0 := fresh_game gameId lobby (height env0)) in *.
  set (g1 := set_lastMoveBlockHeight (height env1)
               (set_player1Commitment (Poseidon_hash [m; s]) g0)).
  set (g2 := set_lastMoveBlockHeight (height env2)
               (set_player1Move (mkRPSLSMove m s) g1)).
  exists g1, (put_game gameId g1 st0), g2, (put_game gameId g2 (put_game gameId g1 st0)).
  split; [|split; [|split]].
  - rewrite commitMove_run. cbv zeta. rewrite (stored_Some _ _ _ Hg0).
    change (gameWinner g0) with PublicKey_empty.
    change (player1 g0) with (fst (players lobby)).
    change (commitmentDeadline g0) with (height env0 + MOVE_TIME_LIMIT).
    rewrite Hs1, !PublicKey_equals_refl, (proj2 (Z.leb_le _ _) Hh1). reflexivity.
  - rewrite revealMove_run. cbv zeta.
    rewrite (stored_Some _ _ _ (games_put_game_eq gameId g1 st0)).
    change (gameWinner g1) with PublicKey_empty.
    change (player1 g1) with (fst (players lobby)).
    change (revealDeadline g1) with (height env0 + 2 * MOVE_TIME_LIMIT).
    change (player1Commitment g1) with (Poseidon_hash [m; s]).
    cbn [move salt].
    rewrite Hs2, !PublicKey_equals_refl, (proj2 (Z.leb_le _ _) Hh2), Z.eqb_refl.
    reflexivity.
  - apply games_put_game_eq.
  - reflexivity.
Qed.

Lemma open_commit_reveal_witness :
  exists g1 st1 g2 st2,
    commitMove (mkEnv alice 60) 7 (sample_hash [4; 9])
      (state_after (initGame sample_super (mkEnv carol 10) sample_lobby (Bool_ true))
         empty_state) = Ok g1 st1
    /\ revealMove sample_hash (mkEnv alice 110) 7 (mkRPSLSMove 4 9) st1
       = Ok (g2, None) st2
    /\ games st2 !! 7 = Some g2
    /\ g2 = mkGame 7 (fst (players sample_lobby)) (snd (players sample_lobby))
                   (sample_hash [4; 9]) 0 (mkRPSLSMove 4 9) unset_move 0 0
                   (10 + MOVE_TIME_LIMIT) (10 + 2 * MOVE_TIME_LIMIT)
                   PublicKey_empty 110.
Proof.
  apply (open_commit_reveal sample_hash sample_super
           (mkEnv carol 10) (mkEnv alice 60) (mkEnv alice 110)
           sample_lobby (Bool_ true) empty_state _ 7 4 9).
  - vm_compute. reflexivity.
  - reflexivity.
  - reflexivity.
  - vm_compute. discriminate.
  - vm_compute. discriminate.
Defined.

(** ** A match id that was never opened *)

Lemma stored_None (gameId : Z) (st : State) :
  games st !! gameId = None -> stored gameId st = Game_dummy.
Proof. unfold stored. intros ->. reflexivity. Qed.

(** X13.  No method checks that the match exists: for an id under which
    nothing is stored the methods work on the all-zero record that the
    state map hands out, whose players are the empty key.  So a
    [commitMove] or [revealMove] from any sender with a non-empty key
    fails with 'You are not a player in this game'. *)
Theorem unknown_match_rejects_moves (Poseidon_hash : list Field -> Field)
        (env : Env) (gameId : Z) (c : Field) (mv : RPSLSMove) (st : State) :
  games st !! gameId = None ->
  sender env <> PublicKey_empty ->
  commitMove env gameId c st
  = Failed (AssertFailed "You are not a player in this game")
  /\ revealMove Poseidon_hash env gameId mv st
     = Failed (AssertFailed "You are not a player in this game").
Proof.
  intros Hnone Hs.
  rewrite commitMove_run, revealMove_run. cbv zeta.
  rewrite (stored_None _ _ Hnone).
  change (gameWinner Game_dummy) with PublicKey_empty.
  change (player1 Game_dummy) with PublicKey_empty.
  rewrite PublicKey_equals_refl, (PublicKey_equals_neq _ _ Hs).
  split; reflexivity.
Qed.

Lemma unknown_match_rejects_moves_witness :
  commitMove (mkEnv alice 12) 8 5 sample_state
  = Failed (AssertFailed "You are not a player in this game")
  /\ revealMove sample_hash (mkEnv alice 12) 8 (mkRPSLSMove 0 11) sample_state
     = Failed (AssertFailed "You are not a player in this game").
Proof.
  apply (unknown_match_rejects_moves sample_hash (mkEnv alice 12) 8 5
           (mkRPSLSMove 0 11) sample_state).
  - vm_compute. reflexivity.
  - discriminate.
Defined.

(** X14.  [claimTimeoutVictory] on an id under which nothing is stored
    succeeds for any sender once the block height is above 50: it stores
    the all-zero record under that id, sets the active-match pointer of
    the empty key to 0 and calls [acquireFunds] and [_onLobbyEnd] for
    match id 0.  The winner it writes is the empty key, so the record does
    not count as concluded and the same claim succeeds again.  Up to block
    height 50 it fails with 'Opponent has not timed out yet'. *)
Theorem unknown_match_can_be_claimed (env : Env) (gameId : Z) (st : State) :
  games st !! gameId = None ->
  (height env <= MOVE_TIME_LIMIT ->
   claimTimeoutVictory env gameId st
   = Failed (AssertFailed "Opponent has not timed out yet"))
  /\ (MOVE_TIME_LIMIT < height env ->
      exists st',
        claimTimeoutVictory env gameId st = Ok Game_dummy st'
        /\ games st' !! gameId = Some Game_dummy
        /\ gameWinner Game_dummy = PublicKey_empty
        /\ activeGameId st' !! PublicKey_empty = Some 0
        /\ baseCalls st' =
           baseCalls st ++ [acquireFunds 0 PublicKey_empty PublicKey_empty 1 1 0;
                            _onLobbyEnd 0 (Bool_ true)]
        /\ exists st'', claimTimeoutVictory env gameId st' = Ok Game_dummy st'').
Proof.
  intros Hnone.
  assert (Hrun : forall s, stored gameId s = Game_dummy ->
            claimTimeoutVictory env gameId s =
            if negb (MOVE_TIME_LIMIT <? height env)
            then Failed (AssertFailed "Opponent has not timed out yet")
            else Ok Game_dummy (put_game gameId Game_dummy (split_settled Game_dummy s))).
  { intros s Hs. rewrite claimTimeoutVictory_run. cbv zeta. rewrite Hs.
    change (gameWinner Game_dummy) with PublicKey_empty.
    rewrite PublicKey_equals_refl.
    change (lastMoveBlockHeight Game_dummy + MOVE_TIME_LIMIT) with MOVE_TIME_LIMIT.
    change ((0 <=? MOVE_TIME_LIMIT) && (MOVE_TIME_LIMIT <=? UInt64_MAX)) with true.
    cbn [negb].
    destruct (negb (MOVE_TIME_LIMIT <? height env)); [reflexivity|].
    change (player1 Game_dummy) with PublicKey_empty.
    change (player2 Game_dummy) with PublicKey_empty.
    destruct (toBoolean (PublicKey_equals (sender env) PublicKey_empty));
      reflexivity. }
  split; intros Hh.
  - rewrite (Hrun st (stored_None _ _ Hnone)).
    rewrite (proj2 (Z.ltb_ge _ _) Hh). reflexivity.
  - rewrite (Hrun st (stored_None _ _ Hnone)).
    rewrite (proj2 (Z.ltb_lt _ _) Hh). cbn [negb].
    eexists. split; [reflexivity|].
    split; [apply games_put_game_eq|]. split; [reflexivity|].
    split; [apply lookup_insert_eq|]. split.
    + unfold put_game, split_settled. cbn. reflexivity.
    + rewrite (Hrun _ (stored_Some _ _ _ (games_put_game_eq _ _ _))).
      rewrite (proj2 (Z.ltb_lt _ _) Hh). cbn [negb]. eexists. reflexivity.
Qed.

Lemma unknown_match_can_be_claimed_witness :
  (70 <= MOVE_TIME_LIMIT ->
   claimTimeoutVictory (mkEnv carol 70) 8 sample_state
   = Failed (AssertFailed "Opponent has not timed out yet"))
  /\ (MOVE_TIME_LIMIT < 70 ->
      exists st',
        claimTimeoutVictory (mkEnv carol 70) 8 sample_state = Ok Game_dummy st'
        /\ games st' !! 8 = Some Game_dummy
        /\ gameWinner Game_dummy = PublicKey_empty
        /\ activeGameId st' !! PublicKey_empty = Some 0
        /\ baseCalls st' =
           baseCalls sample_state
             ++ [acquireFunds 0 PublicKey_empty PublicKey_empty 1 1 0;
                 _onLobbyEnd 0 (Bool_ true)]
        /\ exists st'', claimTimeoutVictory (mkEnv carol 70) 8 st' = Ok Game_dummy st'').
Proof.
  apply (unknown_match_can_be_claimed (mkEnv carol 70) 8 sample_state).
  vm_compute. reflexivity.
Defined.

(** ** Phases are not enforced *)

(** X15.  After a successful [revealMove] the same sender can still
    [commitMove] up to the commitment deadline: the call succeeds, replaces
    the stored commitment and leaves the revealed move in its slot, so the
    stored move need not hash to the stored commitment any more. *)
Theorem commit_after_reveal (Poseidon_hash : list Field -> Field)
        (env1 env2 : Env) (gameId : Z) (mv : RPSLSMove) (c : Field)
        (st st1 : State) (g g1 : Game) (r : option PublicKey) :
  games st !! gameId = Some g ->
  revealMove Poseidon_hash env1 gameId mv st = Ok (g1, r) st1 ->
  sender env2 = sender env1 ->
  height env2 <= commitmentDeadline g ->
  exists g2 st2,
    commitMove env2 gameId c st1 = Ok g2 st2
    /\ games st2 !! gameId = Some g2
    /\ player1Commitment g2 = c
    /\ player1Move g2 = mv.
Proof.
  intros Hg Hr Hsame Hdl.
  rewrite revealMove_run in Hr. cbv zeta in Hr.
  rewrite (stored_Some _ _ _ Hg) in Hr.
  destruct (toBoolean (PublicKey_equals (gameWinner g) PublicKey_empty)) eqn:Ew;
    cbn [negb] in Hr; [|discriminate].
  destruct (toBoolean (PublicKey_equals (sender env1) (player1 g))) eqn:Es;
    cbn [negb] in Hr; [|discriminate].
  revert Hr. split_ifs; try discriminate. intros [= <- <- <-].
  rewrite commitMove_run. cbv zeta.
  rewrite (stored_Some _ _ _ (games_put_game_eq _ _ _)).
  cbn [gameWinner player1 commitmentDeadline set_lastMoveBlockHeight set_player1Move].
  rewrite Ew, Hsame, Es, (proj2 (Z.leb_le _ _) Hdl). cbn [negb].
  eexists _, _. split; [reflexivity|].
  split; [apply games_put_game_eq|]. split; reflexivity.
Qed.

Lemma commit_after_reveal_witness :
  exists g2 st2,
    commitMove (mkEnv alice 14) 7 99
      (state_after (revealMove sample_hash (mkEnv alice 13) 7 (mkRPSLSMove 0 11))
         pending_state) = Ok g2 st2
    /\ games st2 !! 7 = Some g2
    /\ player1Commitment g2 = 99
    /\ player1Move g2 = mkRPSLSMove 0 11.
Proof.
  apply (commit_after_reveal sample_hash (mkEnv alice 13) (mkEnv alice 14) 7
           (mkRPSLSMove 0 11) 99 pending_state _ pending_game
           (set_lastMoveBlockHeight 13 revealed_game) None).
  - vm_compute. reflexivity.
  - vm_compute. reflexivity.
  - reflexivity.
  - vm_compute. discriminate.
Defined.

(** ** Moves alone never conclude a match *)

Lemma apply_move_settles_nothing (Poseidon_hash : list Field -> Field)
      (t : Tx) (st : State) :
  is_move t = true ->
  activeGameId (apply_tx Poseidon_hash t st) = activeGameId st
  /\ baseCalls (apply_tx Poseidon_hash t st) = baseCalls st
  /\ forall gameId g,
      games st !! gameId = Some g ->
      exists g', games (apply_tx Poseidon_hash t st) !! gameId = Some g'
                 /\ gameWinner g' = gameWinner g.
Proof.
  intros Hmove.
  destruct t as [env gid c | env gid mv | env gid]; [| |discriminate Hmove];
    cbn [apply_tx]; unfold state_after;
    [rewrite commitMove_run | rewrite revealMove_run]; cbv zeta;
    split_ifs; (split; [reflexivity|]); (split; [reflexivity|]);
    intros gameId g Hg; try (exists g; split; [exact Hg | reflexivity]);
    (destruct (decide (gid = gameId)) as [-> | Hne];
     [ rewrite (stored_Some _ _ _ Hg); eexists;
       split; [apply games_put_game_eq | reflexivity]
     | exists g; split; [|reflexivity];
       rewrite games_put_game_ne by exact Hne; exact Hg ]).
Qed.

(** X16.  Commits and reveals alone never conclude or settle anything:
    after any run made of [commitMove] and [revealMove] transactions only,
    no inherited method has been called, no active-match pointer has been
    written, and every stored match has the winner it had before, so a
    match in progress is still in progress.  Only [claimTimeoutVictory]
    ends a match. *)
Theorem moves_never_settle (Poseidon_hash : list Field -> Field)
        (txs : list Tx) (st : State) :
  Forall (fun t => is_move t = true) txs ->
  activeGameId (run Poseidon_hash txs st) = activeGameId st
  /\ baseCalls (run Poseidon_hash txs st) = baseCalls st
  /\ forall gameId g,
      games st !! gameId = Some g ->
      exists g', games (run Poseidon_hash txs st) !! gameId = Some g'
                 /\ gameWinner g' = gameWinner g.
Proof.
  intros Hall. revert st.
  induction Hall as [| t txs Ht _ IH]; intros st.
  - split; [reflexivity|]. split; [reflexivity|].
    intros gameId g Hg. exists g. split; [exact Hg | reflexivity].
  - change (run Poseidon_hash (t :: txs) st)
      with (run Poseidon_hash txs (apply_tx Poseidon_hash t st)).
    destruct (apply_move_settles_nothing Poseidon_hash t st Ht) as (Ha & Hb & Hw).
    destruct (IH (apply_tx Poseidon_hash t st)) as (Ha' & Hb' & Hw').
    split; [congruence|]. split; [congruence|].
    intros gameId g Hg.
    destruct (Hw gameId g Hg) as (g1 & Hg1 & Hw1).
    destruct (Hw' gameId g1 Hg1) as (g2 & Hg2 & Hw2).
    exists g2. split; [exact Hg2 | congruence].
Qed.

Lemma moves_never_settle_witness :
  activeGameId (run sample_hash
                  [TxCommit (mkEnv alice 12) 7 (sample_hash [0; 11]);
                   TxReveal (mkEnv alice 13) 7 (mkRPSLSMove 0 11)] pending_state)
  = activeGameId pending_state
  /\ baseCalls (run sample_hash
                  [TxCommit (mkEnv alice 12) 7 (sample_hash [0; 11]);
                   TxReveal (mkEnv alice 13) 7 (mkRPSLSMove 0 11)] pending_state)
     = baseCalls pending_state
  /\ forall gameId g,
      games pending_state !! gameId = Some g ->
      exists g',
        games (run sample_hash
                 [TxCommit (mkEnv alice 12) 7 (sample_hash [0; 11]);
                  TxReveal (mkEnv alice 13) 7 (mkRPSLSMove 0 11)] pending_state)
        !! gameId = Some g'
        /\ gameWinner g' = gameWinner g.
Proof.
  apply (moves_never_settle sample_hash
           [TxCommit (mkEnv alice 12) 7 (sample_hash [0; 11]);
            TxReveal (mkEnv alice 13) 7 (mkRPSLSMove 0 11)] pending_state).
  repeat constructor.
Defined.
